(** * Personal budget tracker: the ledger and the budget calculator of [app.py]

    A shallow embedding of the state-changing functions of [app.py]
    ([add_income], [add_expense], [add_to_savings], [withdraw_from_savings],
    [delete_income], [delete_expense], [save_data]) and of
    [calculate_budget_status], followed by the properties of the program.

    Conventions of the embedding.
    - Amounts are Python numbers on which the program only uses [+], [-],
      [*], [>=], [sum] and [max]; the model takes them to be exact integers
      ([Z], Python's [int]), so that the default daily budget [20.0] is [20].
      The properties stated over this model use the order of the numbers and
      the shape of the computed expressions, not laws that rounding breaks.
      Where rounding decides (the savings balance against the sums of its
      transactions) the savings functions are given over an [arithmetic],
      of which Python's [float] is the instance [binary64].
    - A [datetime.date] is modelled by its proleptic Gregorian ordinal, the
      value of [date.toordinal()]: ordinal 1 is Monday 0001-01-01.  An entry's
      ['date'] key holds the text [date.strftime('%Y-%m-%d')], which
      [calculate_budget_status] reads back with [strptime]; the model keeps the
      date this text denotes.
    - [datetime.now()] is an input of every function that reads the clock.
    - [st.session_state.data] is threaded explicitly; the file [DATA_FILE] is
      modelled by the list of the documents written to it, newest first.
    - The script around the functions is embedded as far as it changes or
      reads the document: the start-up with its migration of old files, the
      four forms, the delete buttons of the history tables, the daily budget
      input of the sidebar, the "Available Today" column and the pie chart
      by category.  A run of the script is one [event] handled at a time
      [now]; what pandas leaves open (the order of rows of equal date, the
      order of the chart's slices) is left open in the model. *)

From Stdlib Require Import ZArith QArith Lia Floats.
From stdpp Require Import base list strings sorting gmap.

Open Scope Z_scope.

(** ** Calendar *)

Module Calendar.

(** [datetime.date], by ordinal. *)
Definition date := Z.



(** [date.weekday()]: [(self.toordinal() + 6) % 7], Monday is 0. *)
Definition weekday (d : date) : Z := (d + 6) mod 7.

(** [d - timedelta(days=k)]. *)
Definition minus_days (d : date) (k : Z) : date := d - k.

(** [(a - b).days]. *)
Definition days_between (a b : date) : Z := a - b.

(** [datetime.datetime]: the calendar date and the time of day in
    microseconds. *)
Record datetime := mk_datetime { dt_date : date; dt_micros : Z }.

End Calendar.
Import Calendar.

(** ** Data model: the JSON document held in [st.session_state.data] *)

Record income_entry := mk_income {
  inc_amount : Z;
  inc_description : string;
  inc_date : date;
  inc_timestamp : datetime;
  inc_account : string
}.

Record expense_entry := mk_expense {
  exp_amount : Z;
  exp_description : string;
  exp_category : string;
  exp_date : date;
  exp_timestamp : datetime;
  exp_account : string
}.

Record savings_transaction := mk_tx {
  tx_amount : Z;
  tx_description : string;
  tx_date : date;
  tx_timestamp : datetime;
  tx_type : string
}.

Record settings_t := mk_settings {
  daily_budget : Z;
  week_start : string
}.

Record budget_data := mk_data {
  income : list income_entry;
  expenses : list expense_entry;
  savings_account : Z;
  savings_transactions : list savings_transaction;
  settings : settings_t
}.

(** The session: the document in memory and the successive contents of
    [DATA_FILE]. *)
Record session := mk_session {
  data : budget_data;
  data_file : list budget_data
}.

(** The [else] branch of the initialisation: no file yet, nothing written. *)
Definition initial_data : budget_data :=
  {| income := [];
     expenses := [];
     savings_account := 0;
     savings_transactions := [];
     settings := {| daily_budget := 20; week_start := "Monday" |} |}.

Definition initial_session : session :=
  {| data := initial_data; data_file := [] |}.

(** ** Python built-ins *)

(** [sum(xs)]: a left fold of [+] from [0]. *)
Definition py_sum (xs : list Z) : Z := fold_left Z.add xs 0.

(** [max(0, x)]. *)
Definition py_max0 (x : Z) : Z := if 0 <? x then x else 0.

(** [0 <= index < len(xs)]. *)
Definition in_range {A} (index : Z) (xs : list A) : bool :=
  (0 <=? index) && (index <? Z.of_nat (length xs)).

(** [del xs[index]] for an index that is not negative: the delete functions
    only reach it under the guard [in_range]. *)
Definition py_del {A} (xs : list A) (index : Z) : list A :=
  delete (Z.to_nat index) xs.

(** ** Ledger operations *)

(** [save_data]: the whole document is dumped to [DATA_FILE]. *)
Definition save_data (s : session) : session :=
  {| data := data s; data_file := data s :: data_file s |}.

(** [add_income], [add_expense], [add_to_savings]: append the new entry (and,
    for the savings, add the amount to the balance), then save. *)
Definition add_income (amount : Z) (description : string) (d : date)
    (now : datetime) (s : session) : session :=
  let entry := {| inc_amount := amount;
                  inc_description := description;
                  inc_date := d;
                  inc_timestamp := now;
                  inc_account := "current" |} in
  save_data
    {| data := {| income := income (data s) ++ [entry];
                  expenses := expenses (data s);
                  savings_account := savings_account (data s);
                  savings_transactions := savings_transactions (data s);
                  settings := settings (data s) |};
       data_file := data_file s |}.

Definition add_expense (amount : Z) (description category : string) (d : date)
    (now : datetime) (s : session) : session :=
  let entry := {| exp_amount := amount;
                  exp_description := description;
                  exp_category := category;
                  exp_date := d;
                  exp_timestamp := now;
                  exp_account := "current" |} in
  save_data
    {| data := {| income := income (data s);
                  expenses := expenses (data s) ++ [entry];
                  savings_account := savings_account (data s);
                  savings_transactions := savings_transactions (data s);
                  settings := settings (data s) |};
       data_file := data_file s |}.

Definition add_to_savings (amount : Z) (description : string) (d : date)
    (now : datetime) (s : session) : session :=
  let tx := {| tx_amount := amount;
               tx_description := description;
               tx_date := d;
               tx_timestamp := now;
               tx_type := "deposit" |} in
  save_data
    {| data := {| income := income (data s);
                  expenses := expenses (data s);
                  savings_account := savings_account (data s) + amount;
                  savings_transactions := savings_transactions (data s) ++ [tx];
                  settings := settings (data s) |};
       data_file := data_file s |}.

(** Returns the function's result ([True] or [False]) and the session. *)
Definition withdraw_from_savings (amount : Z) (description : string) (d : date)
    (now : datetime) (s : session) : bool * session :=
  if savings_account (data s) >=? amount then
    let tx := {| tx_amount := amount;
                 tx_description := description;
                 tx_date := d;
                 tx_timestamp := now;
                 tx_type := "withdrawal" |} in
    (true,
     save_data
       {| data := {| income := income (data s);
                     expenses := expenses (data s);
                     savings_account := savings_account (data s) - amount;
                     savings_transactions :=
                       savings_transactions (data s) ++ [tx];
                     settings := settings (data s) |};
          data_file := data_file s |})
  else (false, s).

(** [delete_income], [delete_expense]: under the guard delete the entry and
    save; otherwise do nothing. *)
Definition delete_income (index : Z) (s : session) : session :=
  if in_range index (income (data s)) then
    save_data
      {| data := {| income := py_del (income (data s)) index;
                    expenses := expenses (data s);
                    savings_account := savings_account (data s);
                    savings_transactions := savings_transactions (data s);
                    settings := settings (data s) |};
         data_file := data_file s |}
  else s.

Definition delete_expense (index : Z) (s : session) : session :=
  if in_range index (expenses (data s)) then
    save_data
      {| data := {| income := income (data s);
                    expenses := py_del (expenses (data s)) index;
                    savings_account := savings_account (data s);
                    savings_transactions := savings_transactions (data s);
                    settings := settings (data s) |};
         data_file := data_file s |}
  else s.

(** ** Budget calculator *)

(** The dictionary returned by [calculate_budget_status]; its
    ['daily_budget'] key is [status_daily_budget]. *)
Record budget_status := mk_status {
  total_income : Z;
  total_expenses : Z;
  current_account_balance : Z;
  savings_balance : Z;
  status_daily_budget : Z;
  current_week_expenses : Z;
  expected_spending : Z;
  rollover : Z;
  available_today : Z;
  days_this_week : Z
}.

(** The local [week_start] of [calculate_budget_status]:
    [today - timedelta(days=today.weekday())]. *)
Definition week_start_of (today : date) : date :=
  minus_days today (weekday today).

(** The expenses kept by the generator of [current_week_expenses]. *)
Definition week_items (ws : date) (xs : list expense_entry)
  : list expense_entry :=
  filter (λ item, ws ≤ exp_date item) xs.

Definition calculate_budget_status (s : session) (now : datetime)
  : budget_status :=
  let daily_budget := daily_budget (settings (data s)) in
  let total_income := py_sum (inc_amount <$> income (data s)) in
  let total_expenses := py_sum (exp_amount <$> expenses (data s)) in
  let current_account_balance := total_income - total_expenses in
  let today := dt_date now in
  let week_start := week_start_of today in
  let current_week_expenses :=
    py_sum (exp_amount <$> week_items week_start (expenses (data s))) in
  let days_this_week := days_between today week_start + 1 in
  let expected_spending := daily_budget * days_this_week in
  let rollover := expected_spending - current_week_expenses in
  let available_today := daily_budget + py_max0 rollover in
  {| total_income := total_income;
     total_expenses := total_expenses;
     current_account_balance := current_account_balance;
     savings_balance := savings_account (data s);
     status_daily_budget := daily_budget;
     current_week_expenses := current_week_expenses;
     expected_spending := expected_spending;
     rollover := rollover;
     available_today := available_today;
     days_this_week := days_this_week |}.

(** ** Replaying savings operations *)

Inductive savings_op :=
| Deposit (amount : Z) (description : string) (d : date) (now : datetime)
| Withdraw (amount : Z) (description : string) (d : date) (now : datetime).

Definition op_amount (op : savings_op) : Z :=
  match op with
  | Deposit amount _ _ _ | Withdraw amount _ _ _ => amount
  end.

Definition apply_op (s : session) (op : savings_op) : session :=
  match op with
  | Deposit amount description d now =>
      add_to_savings amount description d now s
  | Withdraw amount description d now =>
      snd (withdraw_from_savings amount description d now s)
  end.

Definition replay (ops : list savings_op) (s : session) : session :=
  fold_left apply_op ops s.

(** ** The savings account over the program's numbers *)

(** The savings functions use [+], [-] and [>=] only.  An [arithmetic] is a
    number type with these operations and with the [0] the balance starts
    from. *)
Record arithmetic := mk_arithmetic {
  number : Type;
  num_zero : number;
  num_add : number → number → number;
  num_sub : number → number → number;
  num_geb : number → number → bool
}.

(** The integers of the rest of this file. *)
Definition exact_numbers : arithmetic :=
  {| number := Z;
     num_zero := 0;
     num_add := Z.add;
     num_sub := Z.sub;
     num_geb := Z.geb |}.

(** Python's [float]: IEEE 754 double precision, every operation rounded
    to nearest, [x >= y] as the comparison [y <= x] of the standard. *)
Definition binary64 : arithmetic :=
  {| number := float;
     num_zero := 0%float;
     num_add := PrimFloat.add;
     num_sub := PrimFloat.sub;
     num_geb := λ x y, PrimFloat.leb y x |}.

(** The two keys of the document that the savings functions read and
    write. *)
Record savings_entry (N : arithmetic) := mk_entry {
  en_amount : number N;
  en_description : string;
  en_date : date;
  en_timestamp : datetime;
  en_type : string
}.
Arguments mk_entry {N} _ _ _ _ _.
Arguments en_amount {N} _.
Arguments en_description {N} _.
Arguments en_date {N} _.
Arguments en_timestamp {N} _.
Arguments en_type {N} _.

Record savings_keys (N : arithmetic) := mk_keys {
  sk_account : number N;
  sk_transactions : list (savings_entry N)
}.
Arguments mk_keys {N} _ _.
Arguments sk_account {N} _.
Arguments sk_transactions {N} _.

(** ['savings_account': 0.0, 'savings_transactions': []]. *)
Definition fresh_savings (N : arithmetic) : savings_keys N :=
  {| sk_account := num_zero N; sk_transactions := [] |}.

(** [add_to_savings] and [withdraw_from_savings] on these two keys. *)
Definition add_to_savings_in (N : arithmetic) (amount : number N)
    (description : string) (d : date) (now : datetime) (k : savings_keys N)
  : savings_keys N :=
  {| sk_account := num_add N (sk_account k) amount;
     sk_transactions :=
       sk_transactions k ++ [mk_entry amount description d now "deposit"] |}.

Definition withdraw_from_savings_in (N : arithmetic) (amount : number N)
    (description : string) (d : date) (now : datetime) (k : savings_keys N)
  : bool * savings_keys N :=
  if num_geb N (sk_account k) amount then
    (true,
     {| sk_account := num_sub N (sk_account k) amount;
        sk_transactions :=
          sk_transactions k
          ++ [mk_entry amount description d now "withdrawal"] |})
  else (false, k).

Inductive request (N : arithmetic) :=
| AskDeposit (amount : number N) (description : string) (d : date)
    (now : datetime)
| AskWithdrawal (amount : number N) (description : string) (d : date)
    (now : datetime).
Arguments AskDeposit {N} _ _ _ _.
Arguments AskWithdrawal {N} _ _ _ _.

Definition serve (N : arithmetic) (k : savings_keys N) (r : request N)
  : savings_keys N :=
  match r with
  | AskDeposit amount description d now =>
      add_to_savings_in N amount description d now k
  | AskWithdrawal amount description d now =>
      snd (withdraw_from_savings_in N amount description d now k)
  end.

Definition serve_all (N : arithmetic) (rs : list (request N))
    (k : savings_keys N) : savings_keys N :=
  fold_left (serve N) rs k.

(** The transactions replayed in their order from [0]: a ['deposit'] adds
    its amount to the running balance, a ['withdrawal'] subtracts it. *)
Definition replay_entry (N : arithmetic) (balance : number N)
    (e : savings_entry N) : number N :=
  if decide (en_type e = "deposit") then num_add N balance (en_amount e)
  else if decide (en_type e = "withdrawal")
       then num_sub N balance (en_amount e)
       else balance.

Definition replayed (N : arithmetic) (txs : list (savings_entry N))
  : number N :=
  fold_left (replay_entry N) txs (num_zero N).

(** [sum(...)] of the amounts of the transactions of one type, and the
    difference of the two sums. *)
Definition num_sum (N : arithmetic) (xs : list (number N)) : number N :=
  fold_left (num_add N) xs (num_zero N).

Definition sum_of_type (N : arithmetic) (ty : string)
    (txs : list (savings_entry N)) : number N :=
  num_sum N (en_amount <$> filter (λ e, en_type e = ty) txs).

Definition sums_difference (N : arithmetic) (txs : list (savings_entry N))
  : number N :=
  num_sub N (sum_of_type N "deposit" txs) (sum_of_type N "withdrawal" txs).

(** The savings keys of a document of this file, and the requests that the
    operations of [replay] make. *)
Definition entry_of (t : savings_transaction) : savings_entry exact_numbers :=
  mk_entry (N := exact_numbers) (tx_amount t) (tx_description t) (tx_date t)
    (tx_timestamp t) (tx_type t).

Definition savings_view (d : budget_data) : savings_keys exact_numbers :=
  mk_keys (N := exact_numbers) (savings_account d)
    (entry_of <$> savings_transactions d).

Definition request_of (op : savings_op) : request exact_numbers :=
  match op with
  | Deposit amount description d now =>
      AskDeposit (N := exact_numbers) amount description d now
  | Withdraw amount description d now =>
      AskWithdrawal (N := exact_numbers) amount description d now
  end.

Definition replayed_balance (d : budget_data) : Z :=
  replayed exact_numbers (sk_transactions (savings_view d)).

(** The savings balance is its transactions replayed in order. *)
Definition in_order (s : session) : Prop :=
  savings_account (data s) = replayed_balance (data s).

(** The rational number that a finite [float] is. *)
Definition exact_value (x : float) : option Q :=
  match Prim2SF x with
  | S754_zero _ => Some 0%Q
  | S754_finite sign m e =>
      Some ((if sign then -1 else 1) * inject_Z (Z.pos m) * Qpower 2 e)%Q
  | S754_infinity _ | S754_nan => None
  end.

(** The exact sum of finite floats, and the exact sum of the deposits minus
    the exact sum of the withdrawals. *)
Definition exact_sum (xs : list float) : option Q :=
  foldr (λ x total,
           match exact_value x, total with
           | Some q, Some t => Some (q + t)%Q
           | _, _ => None
           end)
    (Some 0%Q) xs.

Definition exact_sums_difference (txs : list (savings_entry binary64))
  : option Q :=
  match
    exact_sum
      (en_amount (N := binary64) <$> filter (λ e, en_type e = "deposit") txs),
    exact_sum
      (en_amount (N := binary64)
         <$> filter (λ e, en_type e = "withdrawal") txs)
  with
  | Some deposits, Some withdrawals => Some (deposits - withdrawals)%Q
  | _, _ => None
  end.

(** Deposit 50.00, withdraw 19.99, deposit 0.01, as the forms pass them:
    the floats nearest to these decimals. *)
Definition rounding_requests : list (request binary64) :=
  [AskDeposit (N := binary64) 50%float "pay" 739922 (mk_datetime 739922 0);
   AskWithdrawal (N := binary64) 0x1.3fd70a3d70a3dp+4%float "book" 739923
     (mk_datetime 739923 0);
   AskDeposit (N := binary64) 0x1.47ae147ae147bp-7%float "coin" 739924
     (mk_datetime 739924 0)].

(** ** Reference definitions and sample sessions *)

(** The amounts of the expenses dated [ws] or later, added up entry by
    entry. *)
Fixpoint expenses_since (ws : date) (xs : list expense_entry) : Z :=
  match xs with
  | [] => 0
  | item :: rest =>
      (if decide (ws ≤ exp_date item) then exp_amount item else 0)
      + expenses_since ws rest
  end.

(** A session with three incomes, added in the order a, b, c. *)
Definition three_incomes : session :=
  add_income 30 "c" 739924 (mk_datetime 739924 0)
    (add_income 20 "b" 739923 (mk_datetime 739923 0)
       (add_income 10 "a" 739922 (mk_datetime 739922 0) initial_session)).

(** ** Start-up: the initialisation of [st.session_state.data] *)

(** What [json.load] reads from [DATA_FILE]: a document in which the two
    savings keys may be missing (a file written before the savings account
    existed).  The other keys are read by every later function without a
    check and are taken to be there. *)
Record stored_document := mk_stored {
  st_income : list income_entry;
  st_expenses : list expense_entry;
  st_savings_account : option Z;
  st_savings_transactions : option (list savings_transaction);
  st_settings : settings_t
}.

(** [json.dump] of the document in memory: every key is written. *)
Definition dump (d : budget_data) : stored_document :=
  {| st_income := income d;
     st_expenses := expenses d;
     st_savings_account := Some (savings_account d);
     st_savings_transactions := Some (savings_transactions d);
     st_settings := settings d |}.

(** "Migrate old data to new format": each missing savings key gets its
    default. *)
Definition migrate (f : stored_document) : budget_data :=
  {| income := st_income f;
     expenses := st_expenses f;
     savings_account := default 0 (st_savings_account f);
     savings_transactions := default [] (st_savings_transactions f);
     settings := st_settings f |}.

(** The start of a session: with a file, load, migrate and save; without,
    the default document and no write.  [file] is [None] when
    [os.path.exists(DATA_FILE)] is false. *)
Definition start_session (file : option stored_document) : session :=
  match file with
  | Some f => save_data {| data := migrate f; data_file := [] |}
  | None => initial_session
  end.

(** The content of [DATA_FILE] in session [s] that started from [file]: the
    last document written, or the file as it was found. *)
Definition file_content (file : option stored_document) (s : session)
  : option stored_document :=
  match data_file s with
  | d :: _ => Some (dump d)
  | [] => file
  end.

(** ** The forms, the delete buttons and the sidebar *)

(** The truth value of a [str]: false for the empty text only. *)
Definition py_truth (t : string) : bool := negb (String.eqb t "").

(** What a form reports: [st.success] with the amount it formats, or
    [st.error] with its text. *)
Inductive feedback :=
| Success (amount : Z)
| Error (message : string).

(** The four forms after [form_submit_button] returned true. *)
Definition income_form (amount : Z) (description : string) (d : date)
    (now : datetime) (s : session) : session * feedback :=
  if py_truth description
  then (add_income amount description d now s, Success amount)
  else (s, Error "Please provide a description").

Definition expense_form (amount : Z) (description category : string)
    (d : date) (now : datetime) (s : session) : session * feedback :=
  if py_truth description
  then (add_expense amount description category d now s, Success amount)
  else (s, Error "Please provide a description").

Definition savings_deposit_form (amount : Z) (description : string) (d : date)
    (now : datetime) (s : session) : session * feedback :=
  if py_truth description
  then (add_to_savings amount description d now s, Success amount)
  else (s, Error "Please provide a description").

Definition savings_withdrawal_form (amount : Z) (description : string)
    (d : date) (now : datetime) (s : session) : session * feedback :=
  if py_truth description then
    if fst (withdraw_from_savings amount description d now s)
    then (snd (withdraw_from_savings amount description d now s),
          Success amount)
    else (snd (withdraw_from_savings amount description d now s),
          Error "Insufficient funds in savings account!")
  else (s, Error "Please provide a description").

(** The delete button of row [idx] of a history table:
    [original_idx = len(...) - 1 - idx], then the delete function. *)
Definition del_income_button (idx : Z) (s : session) : session :=
  let original_idx := Z.of_nat (length (income (data s))) - 1 - idx in
  delete_income original_idx s.

Definition del_expense_button (idx : Z) (s : session) : session :=
  let original_idx := Z.of_nat (length (expenses (data s))) - 1 - idx in
  delete_expense original_idx s.

(** The rows of a history table: [sort_values('date', ascending=False)] of
    the list.  The order pandas gives to rows of equal date is not fixed by
    the program, so the table is any rearrangement of the list in which the
    dates do not increase. *)
Definition shown_as {A} (date_of : A → date) (rows xs : list A) : Prop :=
  rows ≡ₚ xs ∧ Sorted (λ a b, date_of b ≤ date_of a) rows.

(** The sidebar: the value of the daily budget input is stored, and saved,
    when it differs from the setting. *)
Definition sidebar_daily_budget (v : Z) (s : session) : session :=
  if negb (v =? daily_budget (settings (data s))) then
    save_data
      {| data := {| income := income (data s);
                    expenses := expenses (data s);
                    savings_account := savings_account (data s);
                    savings_transactions := savings_transactions (data s);
                    settings := {| daily_budget := v;
                                   week_start :=
                                     week_start (settings (data s)) |} |};
         data_file := data_file s |}
  else s.

(** What the user can do in one run of the script. *)
Inductive event :=
| SubmitIncome (amount : Z) (description : string) (d : date)
| SubmitExpense (amount : Z) (description category : string) (d : date)
| SubmitDeposit (amount : Z) (description : string) (d : date)
| SubmitWithdrawal (amount : Z) (description : string) (d : date)
| PressDeleteIncome (idx : Z)
| PressDeleteExpense (idx : Z)
| SetDailyBudget (v : Z).

(** One run of the script at time [now] with the event [e]. *)
Definition handle (s : session) (step : datetime * event) : session :=
  let now := fst step in
  match snd step with
  | SubmitIncome amount description d =>
      fst (income_form amount description d now s)
  | SubmitExpense amount description category d =>
      fst (expense_form amount description category d now s)
  | SubmitDeposit amount description d =>
      fst (savings_deposit_form amount description d now s)
  | SubmitWithdrawal amount description d =>
      fst (savings_withdrawal_form amount description d now s)
  | PressDeleteIncome idx => del_income_button idx s
  | PressDeleteExpense idx => del_expense_button idx s
  | SetDailyBudget v => sidebar_daily_budget v s
  end.

Definition run (steps : list (datetime * event)) (s : session) : session :=
  fold_left handle steps s.

(** What the number inputs guarantee: [min_value=0.01] for the four amounts,
    [min_value=0.0] for the daily budget. *)
Definition from_widgets (step : datetime * event) : Prop :=
  match snd step with
  | SubmitIncome amount _ _ | SubmitExpense amount _ _ _
  | SubmitDeposit amount _ _ | SubmitWithdrawal amount _ _ => 0 < amount
  | SetDailyBudget v => 0 ≤ v
  | PressDeleteIncome _ | PressDeleteExpense _ => True
  end.

(** Every stored entry has a description that is not empty. *)
Definition described (d : budget_data) : Prop :=
  Forall (λ e, inc_description e ≠ "") (income d)
  ∧ Forall (λ e, exp_description e ≠ "") (expenses d)
  ∧ Forall (λ t, tx_description t ≠ "") (savings_transactions d).

(** Every stored amount is positive, and neither the savings balance nor
    the daily budget is negative. *)
Definition amounts_valid (d : budget_data) : Prop :=
  Forall (λ e, 0 < inc_amount e) (income d)
  ∧ Forall (λ e, 0 < exp_amount e) (expenses d)
  ∧ Forall (λ t, 0 < tx_amount t) (savings_transactions d)
  ∧ 0 ≤ savings_account d
  ∧ 0 ≤ daily_budget (settings d).

(** A run of the script leaves the session as it was or ends with
    [save_data]. *)
Definition saved_over (s s' : session) : Prop :=
  s' = s ∨ data_file s' = data s' :: data_file s.

(** The file and the memory agree: the last document written is the one in
    memory, and while nothing was written the session has no file and holds
    the default document. *)
Definition in_step (file : option stored_document) (s : session) : Prop :=
  match data_file s with
  | d :: _ => d = data s
  | [] => file = None ∧ data s = initial_data
  end.

(** ** The pie chart of the expenses by category *)

(** The rows of one group of [groupby('category')], and the sum of their
    amounts. *)
Definition category_rows (c : string) (xs : list expense_entry)
  : list expense_entry :=
  filter (λ item, exp_category item = c) xs.

Definition category_total (c : string) (xs : list expense_entry) : Z :=
  py_sum (exp_amount <$> category_rows c xs).

(** The group keys: the categories that occur, each once. *)
Definition categories (xs : list expense_entry) : list string :=
  remove_dups (exp_category <$> xs).

(** [expenses_df.groupby('category')['amount'].sum()]: the Series that maps
    each category that occurs to the sum of its amounts.  The order that
    [sort_values] gives to it is left open: the chart's slices are any
    listing of this map. *)
Definition category_summary (xs : list expense_entry) : gmap string Z :=
  list_to_map ((λ c, (c, category_total c xs)) <$> categories xs).

(** [xs[:k]]. *)
Definition py_slice_to {A} (xs : list A) (k : Z) : list A :=
  if 0 <=? k then take (Z.to_nat k) xs
  else take (length xs - Z.to_nat (- k))%nat xs.

Definition other_colors : list string :=
  ["#36a2eb"; "#4bc0c0"; "#9966ff"; "#ff9f40"; "#ffcd56"; "#c9cbcf"].

(** The colours of the chart: red, then as many of [other_colors] as there
    are further categories. *)
Definition pie_colors (xs : list expense_entry) : list string :=
  "#ff4444"
  :: py_slice_to other_colors (Z.of_nat (size (category_summary xs)) - 1).

(** The options of the category select box of the expense form. *)
Definition form_categories : list string :=
  ["Food"; "Transport"; "Entertainment"; "Shopping"; "Bills"; "Healthcare";
   "Other"].

(** ** Sample inputs *)

(** A file written before the savings account existed. *)
Definition old_file : stored_document :=
  {| st_income := [mk_income 1200 "salary" 739900 (mk_datetime 739900 0) "current"];
     st_expenses := [mk_expense 40 "shoes" "Shopping" 739901 (mk_datetime 739901 0) "current"];
     st_savings_account := None;
     st_savings_transactions := None;
     st_settings := {| daily_budget := 25; week_start := "Monday" |} |}.

(** An afternoon at the forms: a deposit, a withdrawal that is refused, a
    submission without description, an expense, a delete and a new budget. *)
Definition sample_steps : list (datetime * event) :=
  [(mk_datetime 739922 100, SubmitDeposit 50 "pay" 739922);
   (mk_datetime 739922 200, SubmitWithdrawal 60 "rent" 739922);
   (mk_datetime 739922 300, SubmitIncome 10 "" 739922);
   (mk_datetime 739923 100, SubmitExpense 12 "lunch" "Food" 739923);
   (mk_datetime 739923 200, SubmitWithdrawal 20 "book" 739923);
   (mk_datetime 739923 300, PressDeleteExpense 0);
   (mk_datetime 739924 100, SetDailyBudget 30)].

(** Two incomes, the one dated later added first. *)
Definition backdated_incomes : session :=
  add_income 10 "earlier" 739922 (mk_datetime 739925 0)
    (add_income 20 "later" 739924 (mk_datetime 739924 0) initial_session).

(** Four expenses in three categories. *)
Definition some_expenses : session :=
  add_expense 8 "bus" "Transport" 739924 (mk_datetime 739924 0)
    (add_expense 30 "dinner" "Food" 739923 (mk_datetime 739923 9)
       (add_expense 45 "power" "Bills" 739923 (mk_datetime 739923 0)
          (add_expense 12 "lunch" "Food" 739922 (mk_datetime 739922 0)
             initial_session))).

(** What a form reports against what it did: an error leaves the session
    as it was, a success formats the submitted amount and ends with one
    write of the document in memory. *)
Definition feedback_matches (amount : Z) (s : session)
    (r : session * feedback) : Prop :=
  match snd r with
  | Error _ => fst r = s
  | Success shown =>
      shown = amount ∧ data_file (fst r) = data (fst r) :: data_file s
  end.

Definition is_error (r : session * feedback) : Prop :=
  match snd r with Error _ => True | Success _ => False end.

(** ** The dashboard *)

(** "Total Wealth": savings plus current account. *)
Definition total_wealth (st : budget_status) : Z :=
  savings_balance st + current_account_balance st.

(** The "Available Today" column: what is shown in each of the three
    branches on the sign of the rollover. *)
Inductive available_panel :=
| ShowRollover (available bonus : Z)
| ShowOverspent (overspent available : Z)
| ShowPlain (available : Z).

Definition available_column (st : budget_status) : available_panel :=
  if 0 <? rollover st then ShowRollover (available_today st) (rollover st)
  else if rollover st <? 0
       then ShowOverspent (Z.abs (rollover st)) (status_daily_budget st)
       else ShowPlain (available_today st).

Definition panel_available (p : available_panel) : Z :=
  match p with
  | ShowRollover available _ | ShowOverspent _ available
  | ShowPlain available => available
  end.

(** ** The built-ins *)

Section Builtins.

Lemma fold_add_shift (xs : list Z) (a : Z) :
  fold_left Z.add xs a = a + py_sum xs.
Proof.
  unfold py_sum. revert a.
  induction xs as [|x xs IH]; intros a; simpl; [lia|].
  rewrite (IH (a + x)), (IH (0 + x)). lia.
Qed.

Lemma py_sum_nil : py_sum [] = 0.
Proof. reflexivity. Qed.

Lemma py_sum_cons (x : Z) (xs : list Z) : py_sum (x :: xs) = x + py_sum xs.
Proof. unfold py_sum at 1. simpl. apply fold_add_shift. Qed.

Lemma py_sum_snoc (xs : list Z) (x : Z) : py_sum (xs ++ [x]) = py_sum xs + x.
Proof. unfold py_sum. rewrite fold_left_app. reflexivity. Qed.


Lemma py_max0_max (x : Z) : py_max0 x = Z.max 0 x.
Proof. unfold py_max0. destruct (Z.ltb_spec 0 x); lia. Qed.

Lemma py_max0_nonneg (x : Z) : 0 ≤ py_max0 x.
Proof. rewrite py_max0_max. lia. Qed.

Context {A : Type}.
Implicit Types (xs : list A) (index : Z).

Lemma in_range_true xs index :
  in_range index xs = true ↔ 0 ≤ index < Z.of_nat (length xs).
Proof.
  unfold in_range. rewrite andb_true_iff, Z.leb_le, Z.ltb_lt. reflexivity.
Qed.

Lemma in_range_false xs index :
  in_range index xs = false ↔ ¬ (0 ≤ index < Z.of_nat (length xs)).
Proof.
  rewrite <- in_range_true. destruct (in_range index xs); split; congruence.
Qed.

Lemma py_del_length xs index :
  in_range index xs = true →
  Z.of_nat (length (py_del xs index)) = Z.of_nat (length xs) - 1.
Proof.
  rewrite in_range_true. intros Hin. unfold py_del.
  rewrite length_delete; [lia|].
  apply lookup_lt_is_Some. lia.
Qed.

Lemma py_del_before xs index (j : nat) :
  0 ≤ index → Z.of_nat j < index → py_del xs index !! j = xs !! j.
Proof. intros Hlo Hj. apply list_lookup_delete_lt. lia. Qed.

Lemma py_del_after xs index (j : nat) :
  0 ≤ index → index ≤ Z.of_nat j → py_del xs index !! j = xs !! S j.
Proof. intros Hlo Hj. apply list_lookup_delete_ge. lia. Qed.

End Builtins.

(** ** The savings account *)

Section Savings.

Implicit Types (s : session) (txs : list savings_transaction).

Lemma withdraw_ok amount description d now s :
  amount ≤ savings_account (data s) →
  withdraw_from_savings amount description d now s =
  (true,
   save_data
     {| data := {| income := income (data s);
                   expenses := expenses (data s);
                   savings_account := savings_account (data s) - amount;
                   savings_transactions :=
                     savings_transactions (data s)
                     ++ [mk_tx amount description d now "withdrawal"];
                   settings := settings (data s) |};
        data_file := data_file s |}).
Proof.
  intros Hle. unfold withdraw_from_savings.
  destruct (Z.geb_spec (savings_account (data s)) amount); [reflexivity|lia].
Qed.

Lemma withdraw_refused amount description d now s :
  savings_account (data s) < amount →
  withdraw_from_savings amount description d now s = (false, s).
Proof.
  intros Hlt. unfold withdraw_from_savings.
  destruct (Z.geb_spec (savings_account (data s)) amount); [lia|reflexivity].
Qed.

(** Split on the guard of [withdraw_from_savings] and rewrite the call with
    the branch taken. *)
Ltac withdraw_cases amount s :=
  let Hle := fresh "Hle" in
  let Hgt := fresh "Hgt" in
  destruct (Z.le_gt_cases amount (savings_account (data s))) as [Hle|Hgt];
  [ rewrite withdraw_ok by exact Hle
  | rewrite withdraw_refused by exact Hgt ];
  simpl.

Lemma replayed_snoc (N : arithmetic) (es : list (savings_entry N))
    (e : savings_entry N) :
  replayed N (es ++ [e]) = replay_entry N (replayed N es) e.
Proof. unfold replayed. rewrite fold_left_app. reflexivity. Qed.

(** One request keeps the balance equal to the transactions replayed: the
    operation on the balance is the one the new transaction records. *)
Lemma serve_in_order (N : arithmetic) (k : savings_keys N) (r : request N) :
  sk_account k = replayed N (sk_transactions k) →
  sk_account (serve N k r) = replayed N (sk_transactions (serve N k r)).
Proof.
  intros Hk. destruct r as [amount description d now|amount description d now];
    simpl.
  - rewrite replayed_snoc, <- Hk. reflexivity.
  - unfold withdraw_from_savings_in.
    destruct (num_geb N (sk_account k) amount); simpl; [|exact Hk].
    rewrite replayed_snoc, <- Hk. reflexivity.
Qed.

Lemma serve_all_in_order (N : arithmetic) (rs : list (request N))
    (k : savings_keys N) :
  sk_account k = replayed N (sk_transactions k) →
  sk_account (serve_all N rs k)
  = replayed N (sk_transactions (serve_all N rs k)).
Proof.
  unfold serve_all. revert k.
  induction rs as [|r rs IH]; intros k Hk; simpl; [exact Hk|].
  apply IH, serve_in_order, Hk.
Qed.

(** The operations of this file, seen on the two savings keys, are the
    operations over [exact_numbers]. *)
Lemma apply_op_view s op :
  savings_view (data (apply_op s op))
  = serve exact_numbers (savings_view (data s)) (request_of op).
Proof.
  destruct op as [amount description d now|amount description d now]; simpl.
  - unfold savings_view, add_to_savings_in. simpl.
    rewrite fmap_app. reflexivity.
  - unfold withdraw_from_savings, withdraw_from_savings_in. simpl.
    destruct (savings_account (data s) >=? amount); simpl; [|reflexivity].
    unfold savings_view. simpl. rewrite fmap_app. reflexivity.
Qed.

Lemma replay_view ops s :
  savings_view (data (replay ops s))
  = serve_all exact_numbers (request_of <$> ops) (savings_view (data s)).
Proof.
  unfold replay, serve_all. revert s.
  induction ops as [|op ops IH]; intros s; simpl; [reflexivity|].
  rewrite IH, apply_op_view. reflexivity.
Qed.

Lemma apply_op_in_order s op : in_order s → in_order (apply_op s op).
Proof.
  unfold in_order, replayed_balance. intros Hs.
  rewrite apply_op_view.
  change (savings_account (data (apply_op s op)))
    with (sk_account (savings_view (data (apply_op s op)))).
  rewrite apply_op_view.
  apply (serve_in_order exact_numbers (savings_view (data s)) (request_of op)).
  exact Hs.
Qed.

Lemma apply_op_nonneg s op :
  0 < op_amount op → 0 ≤ savings_account (data s) →
  0 ≤ savings_account (data (apply_op s op)).
Proof.
  destruct op as [amount description d now|amount description d now];
    simpl; intros Hpos Hs.
  - lia.
  - withdraw_cases amount s; [lia|exact Hs].
Qed.

Lemma replay_in_order ops s : in_order s → in_order (replay ops s).
Proof.
  unfold replay. revert s.
  induction ops as [|op ops IH]; intros s Hs; simpl; [exact Hs|].
  apply IH, apply_op_in_order, Hs.
Qed.

Lemma replay_nonneg ops s :
  Forall (λ op, 0 < op_amount op) ops →
  0 ≤ savings_account (data s) →
  0 ≤ savings_account (data (replay ops s)).
Proof.
  unfold replay. intros Hops. revert s.
  induction Hops as [|op ops Hop _ IH]; intros s Hs; simpl; [exact Hs|].
  apply IH, apply_op_nonneg; assumption.
Qed.

End Savings.

(** C1, as stated, fails: the forms pass floats.  After a deposit of 50.00,
    a withdrawal of 19.99 and a deposit of 0.01 the savings balance is
    30.020000000000003, while the sum of the deposits minus the sum of the
    withdrawals is 30.02, whether the sums are computed as Python's [sum]
    computes them or exactly, as rational numbers. *)
Lemma savings_balance_rounding_counterexample :
  sk_account (serve_all binary64 rounding_requests (fresh_savings binary64))
  = 0x1.e051eb851eb86p+4%float
  /\ sums_difference binary64
       (sk_transactions
          (serve_all binary64 rounding_requests (fresh_savings binary64)))
     = 0x1.e051eb851eb85p+4%float
  /\ PrimFloat.eqb
       (sk_account
          (serve_all binary64 rounding_requests (fresh_savings binary64)))
       (sums_difference binary64
          (sk_transactions
             (serve_all binary64 rounding_requests (fresh_savings binary64))))
     = false
  /\ match
       exact_value
         (sk_account
            (serve_all binary64 rounding_requests (fresh_savings binary64))),
       exact_sums_difference
         (sk_transactions
            (serve_all binary64 rounding_requests (fresh_savings binary64)))
     with
     | Some balance, Some difference => Qeq_bool balance difference
     | _, _ => true
     end = false.
Proof. repeat split; vm_compute; reflexivity. Qed.

(** C1, amended: after any sequence of deposits and withdrawals from the
    initial savings keys, in any arithmetic and so in the program's floats,
    the savings balance is the recorded transactions replayed in their order
    from 0, a deposit adding its amount and a withdrawal subtracting it.  The
    operations of this file are these operations over the integers; and when
    every requested amount is positive the savings balance is not negative
    after any number [k] of the operations. *)
Theorem savings_balance_replayed_in_order :
  (forall (N : arithmetic) (requests : list (request N)),
     sk_account (serve_all N requests (fresh_savings N))
     = replayed N (sk_transactions (serve_all N requests (fresh_savings N))))
  /\ (forall (ops : list savings_op) (s0 : session),
        savings_account (data s0) = 0 ->
        savings_transactions (data s0) = [] ->
        savings_view (data (replay ops s0))
        = serve_all exact_numbers (request_of <$> ops)
            (fresh_savings exact_numbers)
        /\ savings_account (data (replay ops s0))
           = replayed_balance (data (replay ops s0))
        /\ (Forall (fun op => 0 < op_amount op) ops ->
            forall k : nat,
              0 <= savings_account (data (replay (take k ops) s0)))).
Proof.
  split.
  - intros N requests. apply serve_all_in_order. reflexivity.
  - intros ops s0 Hbal Htxs.
    assert (Hfresh : savings_view (data s0) = fresh_savings exact_numbers).
    { unfold savings_view, fresh_savings. rewrite Hbal, Htxs. reflexivity. }
    split; [rewrite replay_view, Hfresh; reflexivity|]. split.
    + apply (replay_in_order ops s0). unfold in_order, replayed_balance.
      rewrite Hfresh, Hbal. reflexivity.
    + intros Hops k. apply replay_nonneg; [apply Forall_take, Hops|lia].
Qed.

(** The three requests of the counterexample, and the integer operations
    deposit 50, withdraw 60 (refused), withdraw 20, deposit 5. *)
Lemma savings_balance_replayed_in_order_witness :
  sk_account (serve_all binary64 rounding_requests (fresh_savings binary64))
  = replayed binary64
      (sk_transactions
         (serve_all binary64 rounding_requests (fresh_savings binary64)))
  /\ 0 <= savings_account
        (data (replay [Deposit 50 "pay" 739922 (mk_datetime 739922 0);
                       Withdraw 60 "rent" 739923 (mk_datetime 739923 0);
                       Withdraw 20 "food" 739923 (mk_datetime 739923 5);
                       Deposit 5 "gift" 739924 (mk_datetime 739924 0)]
                 initial_session)).
Proof.
  split.
  - apply (proj1 savings_balance_replayed_in_order binary64 rounding_requests).
  - apply (proj2 (proj2 (proj2 savings_balance_replayed_in_order
             [Deposit 50 "pay" 739922 (mk_datetime 739922 0);
              Withdraw 60 "rent" 739923 (mk_datetime 739923 0);
              Withdraw 20 "food" 739923 (mk_datetime 739923 5);
              Deposit 5 "gift" 739924 (mk_datetime 739924 0)]
             initial_session eq_refl eq_refl))
           ltac:(repeat (constructor; [simpl; lia|]); constructor) 4%nat).
Defined.

(** C2: a withdrawal of more than the current savings balance returns
    [False] and changes nothing: the session is the same, so the balance, the
    transaction list, every other key and the file are as before. *)
Theorem withdraw_insufficient_unchanged
    (amount : Z) (description : string) (d : date) (now : datetime)
    (s : session) :
  savings_account (data s) < amount ->
  fst (withdraw_from_savings amount description d now s) = false
  /\ snd (withdraw_from_savings amount description d now s) = s
  /\ savings_account (data (snd (withdraw_from_savings amount description d now s)))
     = savings_account (data s)
  /\ savings_transactions (data (snd (withdraw_from_savings amount description d now s)))
     = savings_transactions (data s)
  /\ data_file (snd (withdraw_from_savings amount description d now s))
     = data_file s.
Proof.
  intros Hlt. rewrite withdraw_refused by exact Hlt. simpl. repeat split.
Qed.

(** Deposit 50 into the empty savings account, then ask for 60. *)
Lemma withdraw_insufficient_unchanged_witness :
  savings_account
    (data (add_to_savings 50 "pay" 739922 (mk_datetime 739922 0) initial_session))
  < 60
  /\ snd (withdraw_from_savings 60 "rent" 739923 (mk_datetime 739923 0)
            (add_to_savings 50 "pay" 739922 (mk_datetime 739922 0) initial_session))
     = add_to_savings 50 "pay" 739922 (mk_datetime 739922 0) initial_session.
Proof.
  assert (Hlt : savings_account
    (data (add_to_savings 50 "pay" 739922 (mk_datetime 739922 0) initial_session))
    < 60) by (simpl; lia).
  split; [exact Hlt|].
  exact (proj1 (proj2 (withdraw_insufficient_unchanged 60 "rent" 739923
    (mk_datetime 739923 0)
    (add_to_savings 50 "pay" 739922 (mk_datetime 739922 0) initial_session)
    Hlt))).
Defined.

(** C8: a withdrawal succeeds exactly when the amount is at most the savings
    balance; withdrawing the whole balance succeeds and leaves 0. *)
Theorem withdraw_succeeds_iff
    (amount : Z) (description : string) (d : date) (now : datetime)
    (s : session) :
  (fst (withdraw_from_savings amount description d now s) = true
   <-> amount <= savings_account (data s))
  /\ fst (withdraw_from_savings (savings_account (data s)) description d now s)
     = true
  /\ savings_account
       (data (snd (withdraw_from_savings (savings_account (data s))
                     description d now s)))
     = 0.
Proof.
  split; [|split].
  - destruct (Z.le_gt_cases amount (savings_account (data s))) as [Hle|Hgt].
    + rewrite withdraw_ok by exact Hle. simpl. tauto.
    + rewrite withdraw_refused by exact Hgt. simpl.
      split; [discriminate|lia].
  - rewrite withdraw_ok by lia. reflexivity.
  - rewrite withdraw_ok by lia. simpl. lia.
Qed.

(** ** Adding entries *)



(** ** The calendar of the budget calculator *)

Section Week.

Implicit Types (d today ws : date).

Lemma weekday_range d : 0 ≤ weekday d ≤ 6.
Proof. unfold weekday. pose proof (Z.mod_pos_bound (d + 6) 7). lia. Qed.





End Week.

(** ** The sums of the budget calculator *)

Section Status.

Implicit Types (s : session) (now : datetime) (xs : list expense_entry).

Lemma week_items_snoc ws xs item :
  week_items ws (xs ++ [item]) =
  week_items ws xs ++ (if decide (ws ≤ exp_date item) then [item] else []).
Proof.
  unfold week_items. rewrite filter_app. reflexivity.
Qed.

Lemma week_sum_expenses_since ws xs :
  py_sum (exp_amount <$> week_items ws xs) = expenses_since ws xs.
Proof.
  unfold week_items.
  induction xs as [|item xs IH]; [reflexivity|].
  rewrite filter_cons. simpl.
  destruct (decide (ws ≤ exp_date item)).
  - rewrite fmap_cons, py_sum_cons, IH. reflexivity.
  - rewrite IH. lia.
Qed.

Lemma status_days_this_week s now :
  days_this_week (calculate_budget_status s now) = weekday (dt_date now) + 1.
Proof.
  unfold calculate_budget_status, week_start_of, minus_days, days_between.
  simpl. lia.
Qed.

Lemma status_available_today s now :
  available_today (calculate_budget_status s now) =
  daily_budget (settings (data s))
  + Z.max 0 (rollover (calculate_budget_status s now)).
Proof. rewrite <- py_max0_max. reflexivity. Qed.

Lemma status_rollover s now :
  rollover (calculate_budget_status s now) =
  daily_budget (settings (data s)) * (weekday (dt_date now) + 1)
  - current_week_expenses (calculate_budget_status s now).
Proof. rewrite <- (status_days_this_week s now). reflexivity. Qed.

End Status.

(** C3: [available_today] is [daily_budget + max(0, rollover)] with
    [rollover = expected_spending - current_week_expenses], so it is never
    below [daily_budget].  With a daily budget of 20 on a Wednesday, week
    expenses of 0 give a rollover of 60 and 80 available; week expenses of 70
    give a rollover of -10 and 20 available. *)
Theorem available_today_formula (s : session) (now : datetime) :
  let st := calculate_budget_status s now in
  status_daily_budget st = daily_budget (settings (data s))
  /\ expected_spending st = status_daily_budget st * days_this_week st
  /\ rollover st = expected_spending st - current_week_expenses st
  /\ available_today st = status_daily_budget st + Z.max 0 (rollover st)
  /\ status_daily_budget st <= available_today st
  /\ (rollover st <= 0 -> available_today st = status_daily_budget st)
  /\ (daily_budget (settings (data s)) = 20 ->
      weekday (dt_date now) = 2 ->
      (current_week_expenses st = 0 ->
       rollover st = 60 /\ available_today st = 80)
      /\ (current_week_expenses st = 70 ->
          rollover st = -10 /\ available_today st = 20)).
Proof.
  intros st.
  pose proof (status_available_today s now) as Havail.
  pose proof (status_rollover s now) as Hroll.
  fold st in Havail, Hroll.
  assert (Hdb : status_daily_budget st = daily_budget (settings (data s)))
    by reflexivity.
  repeat split; try reflexivity; intros; lia.
Qed.

(** Wednesday 2026-11-04, first with no expense, then with one of 70 on the
    Tuesday. *)
Lemma available_today_formula_witness :
  (rollover (calculate_budget_status initial_session (mk_datetime 739924 0)) = 60
   /\ available_today
        (calculate_budget_status initial_session (mk_datetime 739924 0)) = 80)
  /\ (rollover
        (calculate_budget_status
           (add_expense 70 "shoes" "Shopping" 739923 (mk_datetime 739923 0)
              initial_session)
           (mk_datetime 739924 0)) = -10
      /\ available_today
           (calculate_budget_status
              (add_expense 70 "shoes" "Shopping" 739923 (mk_datetime 739923 0)
                 initial_session)
              (mk_datetime 739924 0)) = 20).
Proof.
  split.
  - apply (available_today_formula initial_session (mk_datetime 739924 0));
      reflexivity.
  - apply (available_today_formula
             (add_expense 70 "shoes" "Shopping" 739923 (mk_datetime 739923 0)
                initial_session)
             (mk_datetime 739924 0));
      reflexivity.
Defined.








(** ** Deleting entries *)

(** C7: for an index within the list, [delete_income] and [delete_expense]
    remove the entry at that position: the list is one shorter, the entries
    before the index keep their position, the entries after it move up by
    one, and the file is written.  For any other index the session, file
    included, is unchanged. *)
Theorem delete_by_index (index : Z) (s : session) :
  (0 <= index < Z.of_nat (length (income (data s))) ->
   Z.of_nat (length (income (data (delete_income index s))))
     = Z.of_nat (length (income (data s))) - 1
   /\ (forall j : nat, Z.of_nat j < index ->
       income (data (delete_income index s)) !! j = income (data s) !! j)
   /\ (forall j : nat, index <= Z.of_nat j ->
       income (data (delete_income index s)) !! j = income (data s) !! S j)
   /\ data_file (delete_income index s)
      = data (delete_income index s) :: data_file s)
  /\ (~ (0 <= index < Z.of_nat (length (income (data s)))) ->
      delete_income index s = s)
  /\ (0 <= index < Z.of_nat (length (expenses (data s))) ->
      Z.of_nat (length (expenses (data (delete_expense index s))))
        = Z.of_nat (length (expenses (data s))) - 1
      /\ (forall j : nat, Z.of_nat j < index ->
          expenses (data (delete_expense index s)) !! j
          = expenses (data s) !! j)
      /\ (forall j : nat, index <= Z.of_nat j ->
          expenses (data (delete_expense index s)) !! j
          = expenses (data s) !! S j)
      /\ data_file (delete_expense index s)
         = data (delete_expense index s) :: data_file s)
  /\ (~ (0 <= index < Z.of_nat (length (expenses (data s)))) ->
      delete_expense index s = s).
Proof.
  split; [|split; [|split]].
  - intros Hin. unfold delete_income.
    pose proof (proj2 (in_range_true (income (data s)) index) Hin) as Hguard.
    rewrite Hguard. simpl.
    split; [apply py_del_length, Hguard|].
    split; [intros j; apply py_del_before; lia|].
    split; [intros j; apply py_del_after; lia|reflexivity].
  - intros Hout. unfold delete_income.
    apply in_range_false in Hout. rewrite Hout. reflexivity.
  - intros Hin. unfold delete_expense.
    pose proof (proj2 (in_range_true (expenses (data s)) index) Hin) as Hguard.
    rewrite Hguard. simpl.
    split; [apply py_del_length, Hguard|].
    split; [intros j; apply py_del_before; lia|].
    split; [intros j; apply py_del_after; lia|reflexivity].
  - intros Hout. unfold delete_expense.
    apply in_range_false in Hout. rewrite Hout. reflexivity.
Qed.

(** Index 1 removes the second of three incomes; index 3 and index -1
    remove nothing. *)
Lemma delete_by_index_witness :
  (inc_amount <$> income (data (delete_income 1 three_incomes)) = [10; 30]
   /\ Z.of_nat (length (income (data (delete_income 1 three_incomes))))
      = Z.of_nat (length (income (data three_incomes))) - 1)
  /\ delete_income 3 three_incomes = three_incomes
  /\ delete_income (-1) three_incomes = three_incomes.
Proof.
  split; [split; [reflexivity|]|split].
  - apply (delete_by_index 1 three_incomes). simpl. lia.
  - apply (delete_by_index 3 three_incomes). simpl. lia.
  - apply (delete_by_index (-1) three_incomes). simpl. lia.
Defined.

(** C10: whatever the index, [delete_income] leaves the expenses, the savings
    balance, the savings transactions and the settings as they were, and
    [delete_expense] leaves the income, the savings balance, the savings
    transactions and the settings as they were. *)
Theorem delete_frame (index : Z) (s : session) :
  (expenses (data (delete_income index s)) = expenses (data s)
   /\ savings_account (data (delete_income index s)) = savings_account (data s)
   /\ savings_transactions (data (delete_income index s))
      = savings_transactions (data s)
   /\ settings (data (delete_income index s)) = settings (data s))
  /\ (income (data (delete_expense index s)) = income (data s)
      /\ savings_account (data (delete_expense index s))
         = savings_account (data s)
      /\ savings_transactions (data (delete_expense index s))
         = savings_transactions (data s)
      /\ settings (data (delete_expense index s)) = settings (data s)).
Proof.
  unfold delete_income, delete_expense.
  destruct (in_range index (income (data s))),
           (in_range index (expenses (data s)));
    repeat split.
Qed.


(** ** Sessions: start-up, events and the file *)

Section Sessions.

Implicit Types (s : session) (step : datetime * event)
  (steps : list (datetime * event)) (file : option stored_document).

Lemma migrate_dump (d : budget_data) : migrate (dump d) = d.
Proof. destruct d. reflexivity. Qed.

Lemma py_truth_true (t : string) : py_truth t = true ↔ t ≠ "".
Proof.
  unfold py_truth. destruct (String.eqb_spec t ""); simpl; split;
    congruence.
Qed.

Lemma handle_saved_over s step : saved_over s (handle s step).
Proof.
  unfold saved_over, handle. destruct step as [now [a t d|a t c d|a t d|a t d|i|i|v]];
    simpl.
  - unfold income_form. destruct (py_truth t); simpl; auto.
  - unfold expense_form. destruct (py_truth t); simpl; auto.
  - unfold savings_deposit_form. destruct (py_truth t); simpl; auto.
  - unfold savings_withdrawal_form, withdraw_from_savings.
    destruct (py_truth t); simpl; auto.
    destruct (savings_account (data s) >=? a); simpl; auto.
  - unfold del_income_button, delete_income.
    destruct (in_range _ _); simpl; auto.
  - unfold del_expense_button, delete_expense.
    destruct (in_range _ _); simpl; auto.
  - unfold sidebar_daily_budget.
    destruct (negb _); simpl; auto.
Qed.

Lemma start_session_in_step file : in_step file (start_session file).
Proof. destruct file; simpl; [reflexivity|split; reflexivity]. Qed.

Lemma handle_in_step file s step :
  in_step file s → in_step file (handle s step).
Proof.
  intros Hs. destruct (handle_saved_over s step) as [->|Hsave]; [exact Hs|].
  unfold in_step. rewrite Hsave. reflexivity.
Qed.

Lemma run_in_step file steps s : in_step file s → in_step file (run steps s).
Proof.
  unfold run. revert s.
  induction steps as [|step steps IH]; intros s Hs; simpl; [exact Hs|].
  apply IH, handle_in_step, Hs.
Qed.

Lemma in_step_restart file s :
  in_step file s → data (start_session (file_content file s)) = data s.
Proof.
  unfold in_step, file_content.
  destruct (data_file s) as [|d ds].
  - intros [-> Hd]. symmetry. exact Hd.
  - intros ->. simpl. apply migrate_dump.
Qed.

(** The savings forms are the two operations of the savings account, or
    nothing; every other event leaves the savings keys alone. *)
Lemma handle_in_order s step : in_order s → in_order (handle s step).
Proof.
  intros Hs. unfold handle.
  destruct step as [now [a t d|a t c d|a t d|a t d|i|i|v]]; simpl.
  - unfold income_form. destruct (py_truth t); exact Hs.
  - unfold expense_form. destruct (py_truth t); exact Hs.
  - unfold savings_deposit_form. destruct (py_truth t); [|exact Hs].
    apply (apply_op_in_order s (Deposit a t d now)), Hs.
  - unfold savings_withdrawal_form. destruct (py_truth t); [|exact Hs].
    destruct (fst (withdraw_from_savings a t d now s));
      apply (apply_op_in_order s (Withdraw a t d now)), Hs.
  - unfold del_income_button, delete_income.
    destruct (in_range _ _); exact Hs.
  - unfold del_expense_button, delete_expense.
    destruct (in_range _ _); exact Hs.
  - unfold sidebar_daily_budget. destruct (negb _); exact Hs.
Qed.

Lemma run_in_order steps s : in_order s → in_order (run steps s).
Proof.
  unfold run. revert s.
  induction steps as [|step steps IH]; intros s Hs; simpl; [exact Hs|].
  apply IH, handle_in_order, Hs.
Qed.

Lemma Forall_snoc_1 {A} (P : A → Prop) (xs : list A) (x : A) :
  Forall P xs → P x → Forall P (xs ++ [x]).
Proof. intros Hxs Hx. apply Forall_app. split; [exact Hxs|]. repeat constructor. exact Hx. Qed.

Lemma handle_described s step :
  described (data s) → described (data (handle s step)).
Proof.
  intros (Hinc & Hexp & Htx). unfold handle.
  destruct step as [now [a t d|a t c d|a t d|a t d|i|i|v]]; simpl.
  - unfold income_form. destruct (py_truth t) eqn:Ht; [|repeat split; assumption].
    apply py_truth_true in Ht. repeat split; simpl; try assumption.
    apply Forall_snoc_1; assumption.
  - unfold expense_form. destruct (py_truth t) eqn:Ht; [|repeat split; assumption].
    apply py_truth_true in Ht. repeat split; simpl; try assumption.
    apply Forall_snoc_1; assumption.
  - unfold savings_deposit_form.
    destruct (py_truth t) eqn:Ht; [|repeat split; assumption].
    apply py_truth_true in Ht. repeat split; simpl; try assumption.
    apply Forall_snoc_1; assumption.
  - unfold savings_withdrawal_form, withdraw_from_savings.
    destruct (py_truth t) eqn:Ht; [|repeat split; assumption].
    apply py_truth_true in Ht.
    destruct (savings_account (data s) >=? a); simpl;
      repeat split; simpl; try assumption.
    apply Forall_snoc_1; assumption.
  - unfold del_income_button, delete_income.
    destruct (in_range _ _); repeat split; simpl; try assumption.
    apply Forall_delete, Hinc.
  - unfold del_expense_button, delete_expense.
    destruct (in_range _ _); repeat split; simpl; try assumption.
    apply Forall_delete, Hexp.
  - unfold sidebar_daily_budget. destruct (negb _); repeat split; assumption.
Qed.

Lemma run_described steps s :
  described (data s) → described (data (run steps s)).
Proof.
  unfold run. revert s.
  induction steps as [|step steps IH]; intros s Hs; simpl; [exact Hs|].
  apply IH, handle_described, Hs.
Qed.

Lemma handle_amounts_valid s step :
  from_widgets step →
  amounts_valid (data s) → amounts_valid (data (handle s step)).
Proof.
  intros Hw (Hinc & Hexp & Htx & Hbal & Hdb). unfold handle.
  destruct step as [now [a t d|a t c d|a t d|a t d|i|i|v]];
    unfold from_widgets in Hw; simpl in Hw |- *.
  - unfold income_form. destruct (py_truth t); [|repeat split; assumption].
    repeat split; simpl; try assumption. apply Forall_snoc_1; assumption.
  - unfold expense_form. destruct (py_truth t); [|repeat split; assumption].
    repeat split; simpl; try assumption. apply Forall_snoc_1; assumption.
  - unfold savings_deposit_form.
    destruct (py_truth t); [|repeat split; assumption].
    repeat split; simpl; try assumption; [|lia].
    apply Forall_snoc_1; assumption.
  - unfold savings_withdrawal_form, withdraw_from_savings.
    destruct (py_truth t); [|repeat split; assumption].
    destruct (Z.geb_spec (savings_account (data s)) a); simpl;
      repeat split; simpl; try assumption; [|lia].
    apply Forall_snoc_1; assumption.
  - unfold del_income_button, delete_income.
    destruct (in_range _ _); repeat split; simpl; try assumption.
    apply Forall_delete, Hinc.
  - unfold del_expense_button, delete_expense.
    destruct (in_range _ _); repeat split; simpl; try assumption.
    apply Forall_delete, Hexp.
  - unfold sidebar_daily_budget. destruct (negb _); repeat split; assumption.
Qed.

Lemma run_amounts_valid steps s :
  Forall from_widgets steps →
  amounts_valid (data s) → amounts_valid (data (run steps s)).
Proof.
  unfold run. intros Hsteps. revert s.
  induction Hsteps as [|step steps Hstep _ IH]; intros s Hs; simpl;
    [exact Hs|].
  apply IH, handle_amounts_valid; assumption.
Qed.

Lemma py_sum_nonneg (xs : list Z) : Forall (λ x, 0 < x) xs → 0 ≤ py_sum xs.
Proof.
  induction 1 as [|x xs Hx _ IH]; [reflexivity|].
  rewrite py_sum_cons. lia.
Qed.

Lemma week_sum_le_total ws (xs : list expense_entry) :
  Forall (λ e, 0 < exp_amount e) xs →
  0 ≤ expenses_since ws xs ≤ py_sum (exp_amount <$> xs).
Proof.
  induction 1 as [|x xs Hx _ IH]; [simpl; rewrite py_sum_nil; lia|].
  rewrite fmap_cons, py_sum_cons. simpl.
  destruct (decide (ws ≤ exp_date x)); lia.
Qed.

End Sessions.

(** X1: at any point of a session, whatever the file found at start-up and
    whatever the user did since, starting again from the file as it then is
    gives the document that is in memory. *)
Theorem restart_recovers_document
    (file : option stored_document) (steps : list (datetime * event)) :
  data (start_session (file_content file (run steps (start_session file))))
  = data (run steps (start_session file)).
Proof.
  apply in_step_restart, run_in_step, start_session_in_step.
Qed.

(** X2: if the session starts without a file, or from a file whose savings
    balance, after the migration, is its savings transactions replayed in
    their order from 0 (a file with neither savings key is one), then after
    any events the savings balance is still the savings transactions
    replayed in their order from 0: every deposit added and every withdrawal
    subtracted, one after the other as recorded. *)
Theorem savings_replayed_from_start
    (file : option stored_document) (steps : list (datetime * event)) :
  (forall f, file = Some f ->
     savings_account (migrate f) = replayed_balance (migrate f)) ->
  savings_account (data (run steps (start_session file)))
  = replayed_balance (data (run steps (start_session file))).
Proof.
  intros Hfile. apply run_in_order. unfold in_order.
  destruct file as [f|]; simpl; [apply Hfile|]; reflexivity.
Qed.

Lemma savings_replayed_from_start_witness :
  savings_account (data (run sample_steps (start_session (Some old_file))))
  = replayed_balance
      (data (run sample_steps (start_session (Some old_file)))).
Proof.
  apply (savings_replayed_from_start (Some old_file) sample_steps).
  intros f Hf. injection Hf as <-. reflexivity.
Defined.

(** X3: the forms store no entry without a description: if every income,
    expense and savings transaction of a session has a description that is
    not empty, the same holds after any events, whatever the amounts and
    indices they carry. *)
Theorem forms_keep_descriptions
    (steps : list (datetime * event)) (s : session) :
  described (data s) -> described (data (run steps s)).
Proof. apply run_described. Qed.

Lemma forms_keep_descriptions_witness :
  described (data (run sample_steps (start_session None))).
Proof.
  apply (forms_keep_descriptions sample_steps (start_session None)).
  repeat split; constructor.
Defined.

(** X4: when the amounts come from the number inputs (positive amounts, a
    daily budget that is not negative), a session whose stored amounts are
    positive and whose savings balance and daily budget are not negative
    stays so after any events. *)
Theorem widgets_keep_amounts_valid
    (steps : list (datetime * event)) (s : session) :
  Forall from_widgets steps ->
  amounts_valid (data s) ->
  amounts_valid (data (run steps s)).
Proof. apply run_amounts_valid. Qed.

Lemma widgets_keep_amounts_valid_witness :
  amounts_valid (data (run sample_steps (start_session (Some old_file)))).
Proof.
  apply (widgets_keep_amounts_valid sample_steps (start_session (Some old_file))).
  - repeat (constructor; [unfold from_widgets; simpl; lia|]). constructor.
  - repeat split; simpl; try lia;
      repeat (constructor; [simpl; lia|]); constructor.
Defined.

(** X5: for a document whose expense amounts are positive and whose daily
    budget is not negative, the week's expenses lie between 0 and the total
    expenses, the rollover is at most the expected spending, and the amount
    available today lies between the daily budget and the daily budget plus
    the expected spending, and is at most eight daily budgets. *)
Theorem status_bounds (s : session) (now : datetime) :
  Forall (fun e => 0 < exp_amount e) (expenses (data s)) ->
  0 <= daily_budget (settings (data s)) ->
  0 <= current_week_expenses (calculate_budget_status s now)
    <= total_expenses (calculate_budget_status s now)
  /\ rollover (calculate_budget_status s now)
     <= expected_spending (calculate_budget_status s now)
  /\ status_daily_budget (calculate_budget_status s now)
     <= available_today (calculate_budget_status s now)
     <= status_daily_budget (calculate_budget_status s now)
        + expected_spending (calculate_budget_status s now)
  /\ available_today (calculate_budget_status s now)
     <= 8 * status_daily_budget (calculate_budget_status s now).
Proof.
  intros Hexp Hdb.
  pose proof (week_sum_le_total (week_start_of (dt_date now)) _ Hexp) as Hwk.
  rewrite <- week_sum_expenses_since in Hwk.
  pose proof (status_available_today s now) as Havail.
  pose proof (status_rollover s now) as Hroll.
  pose proof (status_days_this_week s now) as Hdays.
  pose proof (weekday_range (dt_date now)) as Hwd.
  set (st := calculate_budget_status s now) in *.
  change (py_sum (exp_amount <$> week_items (week_start_of (dt_date now))
                    (expenses (data s))))
    with (current_week_expenses st) in Hwk.
  change (py_sum (exp_amount <$> expenses (data s)))
    with (total_expenses st) in Hwk.
  assert (Hexpd : expected_spending st
                  = daily_budget (settings (data s)) * days_this_week st)
    by reflexivity.
  assert (Hsdb : status_daily_budget st = daily_budget (settings (data s)))
    by reflexivity.
  rewrite Hsdb. rewrite Hdays in Hexpd.
  repeat split; try lia; nia.
Qed.

Lemma status_bounds_witness :
  available_today
    (calculate_budget_status
       (run sample_steps (start_session (Some old_file)))
       (mk_datetime 739924 500))
  <= 8 * status_daily_budget
           (calculate_budget_status
              (run sample_steps (start_session (Some old_file)))
              (mk_datetime 739924 500)).
Proof.
  apply (status_bounds (run sample_steps (start_session (Some old_file)))
           (mk_datetime 739924 500)).
  - vm_compute. repeat (constructor; [reflexivity|]). constructor.
  - vm_compute. discriminate.
Defined.

(** ** The history tables and their delete buttons *)

Section HistoryTable.

Context {A : Type} (date_of : A → date).
Implicit Types (xs rows : list A) (e : A).

Lemma Sorted_weaken {B} (R1 R2 : relation B) (l : list B) :
  (∀ x y, R1 x y → R2 x y) → Sorted R1 l → Sorted R2 l.
Proof.
  intros Himp. induction 1 as [|x l _ IH Hhd]; constructor; [exact IH|].
  destruct Hhd; constructor. apply Himp. assumption.
Qed.

Lemma Sorted_le_NoDup_lt (l : list Z) :
  Sorted Z.le l → NoDup l → Sorted Z.lt l.
Proof.
  induction 1 as [|x l _ IH Hhd]; intros Hnd; [constructor|].
  apply NoDup_cons in Hnd as [Hx Hnd].
  constructor; [apply IH, Hnd|].
  destruct Hhd as [|y l' Hxy]; constructor.
  assert (x ≠ y) by (intros ->; apply Hx; left).
  lia.
Qed.

Lemma dates_determine xs x y :
  NoDup (date_of <$> xs) → x ∈ xs → y ∈ xs → date_of x = date_of y → x = y.
Proof.
  intros Hnd [i Hi]%list_elem_of_lookup [j Hj]%list_elem_of_lookup Heq.
  assert (i = j) as ->.
  { apply (NoDup_lookup (date_of <$> xs) i j (date_of x) Hnd).
    - rewrite list_lookup_fmap, Hi. reflexivity.
    - rewrite list_lookup_fmap, Hj, Heq. reflexivity. }
  congruence.
Qed.

Lemma same_dates_same_rows xs ys :
  (∀ x y, x ∈ xs → y ∈ ys → date_of x = date_of y → x = y) →
  date_of <$> xs = date_of <$> ys → xs = ys.
Proof.
  revert ys. induction xs as [|x xs IH]; intros [|y ys] Hinj Heq;
    try discriminate; [reflexivity|].
  rewrite !fmap_cons in Heq. injection Heq as Hhd Htl.
  f_equal.
  - apply Hinj; [left|left|exact Hhd].
  - apply IH; [|exact Htl].
    intros x' y' Hx' Hy'. apply Hinj; right; assumption.
Qed.

(** Dates that increase along the list: the table is the list backwards. *)
Lemma increasing_shown_reverse xs rows :
  NoDup (date_of <$> xs) → Sorted Z.lt (date_of <$> xs) →
  shown_as date_of rows xs → rows = reverse xs.
Proof.
  intros Hnd Hinc [Hperm Hsorted].
  apply same_dates_same_rows.
  - intros x y Hx Hy. apply (dates_determine xs); [exact Hnd| |].
    + rewrite <- Hperm. exact Hx.
    + apply elem_of_reverse. exact Hy.
  - assert (Transitive (λ a b : Z, b ≤ a)) by (intros a b c; lia).
    assert (AntiSymm (=) (λ a b : Z, b ≤ a)) by (intros a b; lia).
    apply (Sorted_unique (λ a b : Z, b ≤ a)).
    + apply (Sorted_fmap date_of (λ a b, date_of b ≤ date_of a));
        [auto|exact Hsorted].
    + rewrite fmap_reverse.
      apply (Sorted_weaken (flip Z.lt)); [unfold flip; intros; lia|].
      apply Sorted_reverse, Hinc.
    + rewrite Hperm, reverse_Permutation. reflexivity.
Qed.

(** A list whose reversal has dates that do not increase, and no date
    twice, has increasing dates. *)
Lemma reverse_shown_increasing xs :
  NoDup (date_of <$> xs) →
  Sorted (λ a b, date_of b ≤ date_of a) (reverse xs) →
  Sorted Z.lt (date_of <$> xs).
Proof.
  intros Hnd Hsorted. apply Sorted_le_NoDup_lt; [|exact Hnd].
  apply Sorted_reverse in Hsorted. rewrite reverse_involutive in Hsorted.
  apply (Sorted_fmap date_of (flip (λ a b, date_of b ≤ date_of a)));
    [unfold flip; auto|exact Hsorted].
Qed.

Lemma delete_removes xs (p : nat) e :
  NoDup xs → xs !! p = Some e → e ∉ delete p xs.
Proof.
  intros Hnd Hp [j Hj]%list_elem_of_lookup.
  rewrite list_lookup_delete in Hj.
  pose proof (NoDup_lookup xs _ _ e Hnd Hp Hj) as Heq.
  destruct (decide (j < p)%nat); lia.
Qed.

Lemma delete_keeps xs (p q : nat) e :
  xs !! q = Some e → q ≠ p → e ∈ delete p xs.
Proof.
  intros Hq Hne. apply list_elem_of_lookup.
  destruct (decide (q < p)%nat) as [Hlt|Hge].
  - exists q. rewrite list_lookup_delete_lt by exact Hlt. exact Hq.
  - exists (q - 1)%nat. rewrite list_lookup_delete_ge by lia.
    replace (S (q - 1)) with q by lia. exact Hq.
Qed.

Lemma button_hits_row_iff xs rows :
  NoDup (date_of <$> xs) → shown_as date_of rows xs →
  Sorted Z.lt (date_of <$> xs)
  ↔ ∀ (idx : nat) e,
      rows !! idx = Some e → e ∉ delete (length xs - S idx)%nat xs.
Proof.
  intros Hnd Hshown. pose proof (NoDup_fmap_1 _ _ Hnd) as Hndx. split.
  - intros Hinc idx e Hrow.
    rewrite (increasing_shown_reverse xs rows Hnd Hinc Hshown) in Hrow.
    apply reverse_lookup_Some in Hrow as [Hrow _].
    apply delete_removes; assumption.
  - intros Hhit. destruct Hshown as [Hperm Hsorted].
    assert (rows = reverse xs) as ->; [|apply reverse_shown_increasing;
                                         assumption].
    apply list_eq. intros i.
    destruct (rows !! i) as [e|] eqn:Hrow.
    + symmetry. apply reverse_lookup_Some.
      pose proof (lookup_lt_Some _ _ _ Hrow) as Hlt.
      rewrite (Permutation_length Hperm) in Hlt. split; [|exact Hlt].
      assert (e ∈ xs) as [q Hq]%list_elem_of_lookup
        by (rewrite <- Hperm; eapply list_elem_of_lookup_2, Hrow).
      destruct (decide (q = length xs - S i)%nat) as [<-|Hne]; [exact Hq|].
      exfalso. apply (Hhit i e Hrow). eapply delete_keeps; eassumption.
    + symmetry. apply lookup_ge_None. apply lookup_ge_None in Hrow.
      rewrite length_reverse. rewrite (Permutation_length Hperm) in Hrow.
      exact Hrow.
Qed.

End HistoryTable.

Section Buttons.

Implicit Types (s : session) (i : nat).

Lemma del_income_button_row i s :
  (i < length (income (data s)))%nat →
  income (data (del_income_button (Z.of_nat i) s))
  = delete (length (income (data s)) - S i)%nat (income (data s)).
Proof.
  intros Hi. unfold del_income_button, delete_income.
  rewrite (proj2 (in_range_true _ _)) by lia.
  simpl. unfold py_del. f_equal. lia.
Qed.

Lemma del_expense_button_row i s :
  (i < length (expenses (data s)))%nat →
  expenses (data (del_expense_button (Z.of_nat i) s))
  = delete (length (expenses (data s)) - S i)%nat (expenses (data s)).
Proof.
  intros Hi. unfold del_expense_button, delete_expense.
  rewrite (proj2 (in_range_true _ _)) by lia.
  simpl. unfold py_del. f_equal. lia.
Qed.

Lemma delete_last {A} (xs : list A) (x : A) :
  delete (length xs) (xs ++ [x]) = xs.
Proof. rewrite delete_middle. apply app_nil_r. Qed.

End Buttons.

(** X6: in a history table whose entries all have different dates, every
    delete button removes the entry shown in its own row exactly when the
    dates increase in the order the entries were added; otherwise some
    button leaves the entry of its row in the list (and removes another).
    This holds for the income table and for the expense table. *)
Theorem delete_button_hits_shown_row
    (s : session) (income_rows : list income_entry)
    (expense_rows : list expense_entry) :
  (NoDup (inc_date <$> income (data s)) ->
   shown_as inc_date income_rows (income (data s)) ->
   (Sorted Z.lt (inc_date <$> income (data s))
    <-> forall (idx : nat) (e : income_entry),
          income_rows !! idx = Some e ->
          e ∉ income (data (del_income_button (Z.of_nat idx) s))))
  /\ (NoDup (exp_date <$> expenses (data s)) ->
      shown_as exp_date expense_rows (expenses (data s)) ->
      (Sorted Z.lt (exp_date <$> expenses (data s))
       <-> forall (idx : nat) (e : expense_entry),
             expense_rows !! idx = Some e ->
             e ∉ expenses (data (del_expense_button (Z.of_nat idx) s)))).
Proof.
  split; intros Hnd Hshown.
  - rewrite (button_hits_row_iff inc_date _ income_rows Hnd Hshown).
    split; intros Hhit idx e Hrow.
    + rewrite del_income_button_row; [exact (Hhit idx e Hrow)|].
      apply lookup_lt_Some in Hrow.
      rewrite <- (Permutation_length (proj1 Hshown)). exact Hrow.
    + rewrite <- del_income_button_row; [exact (Hhit idx e Hrow)|].
      apply lookup_lt_Some in Hrow.
      rewrite <- (Permutation_length (proj1 Hshown)). exact Hrow.
  - rewrite (button_hits_row_iff exp_date _ expense_rows Hnd Hshown).
    split; intros Hhit idx e Hrow.
    + rewrite del_expense_button_row; [exact (Hhit idx e Hrow)|].
      apply lookup_lt_Some in Hrow.
      rewrite <- (Permutation_length (proj1 Hshown)). exact Hrow.
    + rewrite <- del_expense_button_row; [exact (Hhit idx e Hrow)|].
      apply lookup_lt_Some in Hrow.
      rewrite <- (Permutation_length (proj1 Hshown)). exact Hrow.
Qed.

(** The three incomes have increasing dates: the top row shows income c,
    and its button removes it.  With the later income added first, the
    buttons do not all remove their own row. *)
Lemma delete_button_hits_shown_row_witness :
  (mk_income 30 "c" 739924 (mk_datetime 739924 0) "current"
   ∉ income (data (del_income_button 0 three_incomes)))
  /\ ¬ (forall (idx : nat) (e : income_entry),
         income (data backdated_incomes) !! idx = Some e ->
         e ∉ income (data (del_income_button (Z.of_nat idx)
                             backdated_incomes))).
Proof.
  split.
  - assert (Hnd : NoDup (inc_date <$> income (data three_incomes)))
      by compute_done.
    assert (Hshown : shown_as inc_date (reverse (income (data three_incomes)))
                       (income (data three_incomes))).
    { split; [apply reverse_Permutation|].
      repeat constructor; simpl; lia. }
    assert (Hinc : Sorted Z.lt (inc_date <$> income (data three_incomes)))
      by (repeat constructor; simpl; lia).
    exact (proj1 (proj1 (delete_button_hits_shown_row three_incomes
                           (reverse (income (data three_incomes))) [])
                    Hnd Hshown) Hinc 0%nat _ eq_refl).
  - assert (Hnd : NoDup (inc_date <$> income (data backdated_incomes)))
      by compute_done.
    assert (Hshown : shown_as inc_date (income (data backdated_incomes))
                       (income (data backdated_incomes))).
    { split; [reflexivity|]. repeat constructor; simpl; lia. }
    intros Hhit.
    apply (proj1 (delete_button_hits_shown_row backdated_incomes
                    (income (data backdated_incomes)) []) Hnd Hshown)
      in Hhit.
    simpl in Hhit. inversion Hhit as [|? ? _ Hhd]. inversion Hhd. lia.
Defined.

(** X7: the delete button of the top row removes the entry added last,
    whatever its date: adding an income (an expense) and then pressing the
    top button of the income (expense) table gives back the document as it
    was before the addition. *)
Theorem top_button_undoes_add
    (amount : Z) (description category : string) (d : date) (now : datetime)
    (s : session) :
  data (del_income_button 0 (add_income amount description d now s)) = data s
  /\ data (del_expense_button 0
             (add_expense amount description category d now s)) = data s.
Proof.
  split.
  - unfold del_income_button, delete_income, add_income. simpl.
    rewrite (proj2 (in_range_true _ _)) by (rewrite length_app; simpl; lia).
    simpl. unfold py_del. rewrite length_app. simpl.
    replace (Z.to_nat (Z.of_nat (length (income (data s)) + 1) - 1 - 0))
      with (length (income (data s))) by lia.
    rewrite delete_last. destruct s as [[] ?]. reflexivity.
  - unfold del_expense_button, delete_expense, add_expense. simpl.
    rewrite (proj2 (in_range_true _ _)) by (rewrite length_app; simpl; lia).
    simpl. unfold py_del. rewrite length_app. simpl.
    replace (Z.to_nat (Z.of_nat (length (expenses (data s)) + 1) - 1 - 0))
      with (length (expenses (data s))) by lia.
    rewrite delete_last. destruct s as [[] ?]. reflexivity.
Qed.


(** ** The dashboard and the sidebar *)

Section Dashboard.

Implicit Types (s : session) (now : datetime).

Lemma py_sum_delete (xs : list Z) (i : nat) (x : Z) :
  xs !! i = Some x → py_sum (delete i xs) = py_sum xs - x.
Proof.
  revert i. induction xs as [|y xs IH]; intros [|i] Hi; try discriminate.
  - injection Hi as ->. rewrite py_sum_cons. simpl. lia.
  - simpl in Hi |- *. rewrite !py_sum_cons, (IH i Hi). lia.
Qed.

Lemma week_items_before ws (xs : list expense_entry) item :
  exp_date item < ws → week_items ws (xs ++ [item]) = week_items ws xs.
Proof.
  intros Hlt. rewrite week_items_snoc.
  destruct (decide (ws ≤ exp_date item)); [lia|apply app_nil_r].
Qed.

End Dashboard.

(** X8: the "Available Today" column shows the amount available today in
    each of its three branches: with a positive rollover it shows the daily
    budget plus the rollover, with a negative rollover it shows the overspend
    (week expenses minus expected spending) and the daily budget, which is
    then the amount available, and with no rollover the daily budget. *)
Theorem available_column_shows_available (s : session) (now : datetime) :
  panel_available (available_column (calculate_budget_status s now))
  = available_today (calculate_budget_status s now)
  /\ (0 < rollover (calculate_budget_status s now) ->
      available_column (calculate_budget_status s now)
      = ShowRollover
          (daily_budget (settings (data s))
           + rollover (calculate_budget_status s now))
          (rollover (calculate_budget_status s now)))
  /\ (rollover (calculate_budget_status s now) < 0 ->
      available_column (calculate_budget_status s now)
      = ShowOverspent
          (current_week_expenses (calculate_budget_status s now)
           - expected_spending (calculate_budget_status s now))
          (daily_budget (settings (data s))))
  /\ (rollover (calculate_budget_status s now) = 0 ->
      available_column (calculate_budget_status s now)
      = ShowPlain (daily_budget (settings (data s)))).
Proof.
  pose proof (status_available_today s now) as Havail.
  assert (Hroll : rollover (calculate_budget_status s now)
                  = expected_spending (calculate_budget_status s now)
                    - current_week_expenses (calculate_budget_status s now))
    by reflexivity.
  assert (Hdb : status_daily_budget (calculate_budget_status s now)
                = daily_budget (settings (data s))) by reflexivity.
  unfold available_column.
  set (st := calculate_budget_status s now) in *.
  destruct (Z.ltb_spec 0 (rollover st)) as [Hpos|Hle];
    [|destruct (Z.ltb_spec (rollover st) 0) as [Hneg|Hge]];
    cbn [panel_available];
    (split; [lia|]); (split; [|split]); intros; try lia; f_equal; lia.
Qed.

Lemma available_column_shows_available_witness :
  available_column
    (calculate_budget_status
       (add_expense 70 "shoes" "Shopping" 739923 (mk_datetime 739923 0)
          initial_session)
       (mk_datetime 739924 0))
  = ShowOverspent 10 20.
Proof.
  apply (available_column_shows_available
           (add_expense 70 "shoes" "Shopping" 739923 (mk_datetime 739923 0)
              initial_session)
           (mk_datetime 739924 0)).
  vm_compute. reflexivity.
Defined.

(** X9: the sidebar stores the value of the daily budget input; a value
    equal to the setting changes nothing and writes nothing, so a second run
    with the same value is without effect; and a larger daily budget never
    lowers the amount available today. *)
Theorem sidebar_daily_budget_effect (v : Z) (s : session) (now : datetime) :
  daily_budget (settings (data (sidebar_daily_budget v s))) = v
  /\ (v = daily_budget (settings (data s)) -> sidebar_daily_budget v s = s)
  /\ (v <> daily_budget (settings (data s)) ->
      data_file (sidebar_daily_budget v s)
      = data (sidebar_daily_budget v s) :: data_file s)
  /\ sidebar_daily_budget v (sidebar_daily_budget v s)
     = sidebar_daily_budget v s
  /\ (daily_budget (settings (data s)) <= v ->
      available_today (calculate_budget_status s now)
      <= available_today
           (calculate_budget_status (sidebar_daily_budget v s) now)).
Proof.
  assert (Hset : daily_budget (settings (data (sidebar_daily_budget v s))) = v).
  { unfold sidebar_daily_budget.
    destruct (Z.eqb_spec v (daily_budget (settings (data s)))); simpl;
      congruence. }
  split; [exact Hset|]. split; [|split; [|split]].
  - intros ->. unfold sidebar_daily_budget. rewrite Z.eqb_refl. reflexivity.
  - intros Hne. unfold sidebar_daily_budget.
    destruct (Z.eqb_spec v (daily_budget (settings (data s)))); simpl;
      [contradiction|reflexivity].
  - unfold sidebar_daily_budget at 1. rewrite Hset, Z.eqb_refl. reflexivity.
  - intros Hle.
    rewrite !status_available_today, !status_rollover, Hset.
    assert (Hwk : current_week_expenses
                    (calculate_budget_status (sidebar_daily_budget v s) now)
                  = current_week_expenses (calculate_budget_status s now)).
    { unfold sidebar_daily_budget. destruct (negb _); reflexivity. }
    rewrite Hwk. pose proof (weekday_range (dt_date now)). nia.
Qed.

Lemma sidebar_daily_budget_effect_witness :
  available_today
    (calculate_budget_status initial_session (mk_datetime 739924 0))
  <= available_today
       (calculate_budget_status (sidebar_daily_budget 30 initial_session)
          (mk_datetime 739924 0)).
Proof.
  apply (sidebar_daily_budget_effect 30 initial_session (mk_datetime 739924 0)).
  simpl. lia.
Defined.

(** X10: an expense dated before the Monday of the current week leaves the
    week's expenses, the rollover and the amount available today as they
    were; when its amount is not negative, the total expenses do not fall
    and the current account balance does not rise. *)
Theorem backdated_expense_outside_week
    (amount : Z) (description category : string) (d : date) (ts : datetime)
    (s : session) (now : datetime) :
  d < week_start_of (dt_date now) ->
  current_week_expenses
    (calculate_budget_status
       (add_expense amount description category d ts s) now)
  = current_week_expenses (calculate_budget_status s now)
  /\ rollover
       (calculate_budget_status
          (add_expense amount description category d ts s) now)
     = rollover (calculate_budget_status s now)
  /\ available_today
       (calculate_budget_status
          (add_expense amount description category d ts s) now)
     = available_today (calculate_budget_status s now)
  /\ (0 <= amount ->
      total_expenses (calculate_budget_status s now)
      <= total_expenses
           (calculate_budget_status
              (add_expense amount description category d ts s) now)
      /\ current_account_balance
           (calculate_budget_status
              (add_expense amount description category d ts s) now)
         <= current_account_balance (calculate_budget_status s now)).
Proof.
  intros Hbefore.
  assert (Hwk : current_week_expenses
                  (calculate_budget_status
                     (add_expense amount description category d ts s) now)
                = current_week_expenses (calculate_budget_status s now)).
  { unfold calculate_budget_status, add_expense. simpl.
    rewrite week_items_before by exact Hbefore. reflexivity. }
  split; [exact Hwk|].
  rewrite !status_available_today, !status_rollover, Hwk.
  split; [reflexivity|]. split; [reflexivity|].
  intros Hpos.
  assert (Hte : total_expenses
                  (calculate_budget_status
                     (add_expense amount description category d ts s) now)
                = total_expenses (calculate_budget_status s now) + amount).
  { unfold calculate_budget_status, add_expense. simpl.
    rewrite fmap_app. cbn [fmap list_fmap exp_amount].
    apply py_sum_snoc. }
  change (current_account_balance
            (calculate_budget_status
               (add_expense amount description category d ts s) now))
    with (total_income (calculate_budget_status s now)
          - total_expenses
              (calculate_budget_status
                 (add_expense amount description category d ts s) now)).
  change (current_account_balance (calculate_budget_status s now))
    with (total_income (calculate_budget_status s now)
          - total_expenses (calculate_budget_status s now)).
  rewrite Hte. lia.
Qed.

(** On Wednesday 2026-11-04, an expense dated the Sunday before. *)
Lemma backdated_expense_outside_week_witness :
  available_today
    (calculate_budget_status
       (add_expense 70 "shoes" "Shopping" 739921 (mk_datetime 739924 0)
          initial_session)
       (mk_datetime 739924 0))
  = available_today
      (calculate_budget_status initial_session (mk_datetime 739924 0)).
Proof.
  apply (backdated_expense_outside_week 70 "shoes" "Shopping" 739921
           (mk_datetime 739924 0) initial_session (mk_datetime 739924 0)).
  vm_compute. reflexivity.
Defined.

(** X11: the four ledger operations move the current account balance the
    way their name says.  For an amount that is not negative, [add_income]
    lowers neither the total income nor the balance and leaves the total
    expenses as they were, and [add_expense] does not lower the total
    expenses, does not raise the balance and leaves the total income as it
    was.  Deleting the income at a valid index, when its amount is not
    negative, raises neither the total income nor the balance; deleting such
    an expense does not raise the total expenses and does not lower the
    balance. *)
Theorem current_balance_steps
    (amount : Z) (description category : string) (d : date) (ts : datetime)
    (index : Z) (s : session) (now : datetime) :
  (total_expenses
     (calculate_budget_status (add_income amount description d ts s) now)
   = total_expenses (calculate_budget_status s now)
   /\ (0 <= amount ->
       total_income (calculate_budget_status s now)
       <= total_income
            (calculate_budget_status (add_income amount description d ts s)
               now)
       /\ current_account_balance (calculate_budget_status s now)
          <= current_account_balance
               (calculate_budget_status
                  (add_income amount description d ts s) now)))
  /\ (total_income
        (calculate_budget_status
           (add_expense amount description category d ts s) now)
      = total_income (calculate_budget_status s now)
      /\ (0 <= amount ->
          total_expenses (calculate_budget_status s now)
          <= total_expenses
               (calculate_budget_status
                  (add_expense amount description category d ts s) now)
          /\ current_account_balance
               (calculate_budget_status
                  (add_expense amount description category d ts s) now)
             <= current_account_balance (calculate_budget_status s now)))
  /\ (forall e : income_entry,
        0 <= index -> income (data s) !! Z.to_nat index = Some e ->
        0 <= inc_amount e ->
        total_income (calculate_budget_status (delete_income index s) now)
        <= total_income (calculate_budget_status s now)
        /\ current_account_balance
             (calculate_budget_status (delete_income index s) now)
           <= current_account_balance (calculate_budget_status s now))
  /\ (forall e : expense_entry,
        0 <= index -> expenses (data s) !! Z.to_nat index = Some e ->
        0 <= exp_amount e ->
        total_expenses (calculate_budget_status (delete_expense index s) now)
        <= total_expenses (calculate_budget_status s now)
        /\ current_account_balance (calculate_budget_status s now)
           <= current_account_balance
                (calculate_budget_status (delete_expense index s) now)).
Proof.
  split; [|split; [|split]].
  - split; [reflexivity|]. intros Hpos.
    unfold calculate_budget_status, add_income. simpl.
    rewrite fmap_app. cbn [fmap list_fmap inc_amount].
    rewrite py_sum_snoc. lia.
  - split; [reflexivity|]. intros Hpos.
    unfold calculate_budget_status, add_expense. simpl.
    rewrite fmap_app. cbn [fmap list_fmap exp_amount].
    rewrite py_sum_snoc. lia.
  - intros e Hlo He Hpos. unfold delete_income.
    rewrite (proj2 (in_range_true _ _))
      by (apply lookup_lt_Some in He; lia).
    unfold calculate_budget_status, py_del. simpl.
    rewrite list_fmap_delete.
    rewrite (py_sum_delete _ _ (inc_amount e))
      by (rewrite list_lookup_fmap, He; reflexivity).
    lia.
  - intros e Hlo He Hpos. unfold delete_expense.
    rewrite (proj2 (in_range_true _ _))
      by (apply lookup_lt_Some in He; lia).
    unfold calculate_budget_status, py_del. simpl.
    rewrite list_fmap_delete.
    rewrite (py_sum_delete _ _ (exp_amount e))
      by (rewrite list_lookup_fmap, He; reflexivity).
    lia.
Qed.

Lemma current_balance_steps_witness :
  current_account_balance
    (calculate_budget_status (delete_income 1 three_incomes)
       (mk_datetime 739924 0))
  <= current_account_balance
       (calculate_budget_status three_incomes (mk_datetime 739924 0)).
Proof.
  exact (proj2 (proj1 (proj2 (proj2
           (current_balance_steps 0 "" "" 0 (mk_datetime 0 0) 1 three_incomes
              (mk_datetime 739924 0))))
           (mk_income 20 "b" 739923 (mk_datetime 739923 0) "current")
           ltac:(lia) eq_refl ltac:(simpl; lia))).
Defined.

(** X12: the savings account is apart from the current account: a deposit
    and a withdrawal leave the current account balance and the amount
    available today as they were.  After a deposit the total wealth is the
    savings balance plus the amount, plus the current account balance; after
    a withdrawal that succeeds it is the savings balance minus the amount,
    plus the current account balance; after one that is refused it is as
    before.  For an amount that is not negative a deposit does not lower the
    total wealth and a withdrawal does not raise it. *)
Theorem savings_apart_from_current_account
    (amount : Z) (description : string) (d : date) (ts : datetime)
    (s : session) (now : datetime) :
  (current_account_balance
     (calculate_budget_status (add_to_savings amount description d ts s) now)
   = current_account_balance (calculate_budget_status s now)
   /\ available_today
        (calculate_budget_status (add_to_savings amount description d ts s)
           now)
      = available_today (calculate_budget_status s now)
   /\ total_wealth
        (calculate_budget_status (add_to_savings amount description d ts s)
           now)
      = (savings_balance (calculate_budget_status s now) + amount)
        + current_account_balance (calculate_budget_status s now)
   /\ (0 <= amount ->
       total_wealth (calculate_budget_status s now)
       <= total_wealth
            (calculate_budget_status
               (add_to_savings amount description d ts s) now)))
  /\ (current_account_balance
        (calculate_budget_status
           (snd (withdraw_from_savings amount description d ts s)) now)
      = current_account_balance (calculate_budget_status s now)
      /\ available_today
           (calculate_budget_status
              (snd (withdraw_from_savings amount description d ts s)) now)
         = available_today (calculate_budget_status s now)
      /\ total_wealth
           (calculate_budget_status
              (snd (withdraw_from_savings amount description d ts s)) now)
         = (if fst (withdraw_from_savings amount description d ts s)
            then savings_balance (calculate_budget_status s now) - amount
            else savings_balance (calculate_budget_status s now))
           + current_account_balance (calculate_budget_status s now)
      /\ (0 <= amount ->
          total_wealth
            (calculate_budget_status
               (snd (withdraw_from_savings amount description d ts s)) now)
          <= total_wealth (calculate_budget_status s now))).
Proof.
  split.
  - split; [reflexivity|]. split; [reflexivity|].
    split; [reflexivity|]. unfold total_wealth. simpl. lia.
  - unfold withdraw_from_savings.
    destruct (savings_account (data s) >=? amount); simpl;
      (split; [reflexivity|]); (split; [reflexivity|]);
      (split; [reflexivity|]); unfold total_wealth; simpl; lia.
Qed.

Lemma savings_apart_from_current_account_witness :
  total_wealth (calculate_budget_status three_incomes (mk_datetime 739924 0))
  <= total_wealth
       (calculate_budget_status
          (add_to_savings 25 "pay" 739924 (mk_datetime 739924 0)
             three_incomes)
          (mk_datetime 739924 0)).
Proof.
  apply (savings_apart_from_current_account 25 "pay" 739924
           (mk_datetime 739924 0) three_incomes (mk_datetime 739924 0)).
  lia.
Defined.

(** ** The pie chart *)

Section PieChart.

Implicit Types (xs : list expense_entry) (cs : list string) (c : string).

Lemma summary_keys xs :
  ((λ c, (c, category_total c xs)) <$> categories xs).*1 = categories xs.
Proof.
  rewrite <- list_fmap_compose. apply list_fmap_id.
Qed.

Lemma summary_size xs : size (category_summary xs) = length (categories xs).
Proof.
  unfold category_summary. rewrite map_size_list_to_map.
  - apply length_fmap.
  - rewrite summary_keys. apply NoDup_remove_dups.
Qed.

Lemma categories_nonempty xs : xs ≠ [] → (1 ≤ length (categories xs))%nat.
Proof.
  destruct xs as [|item xs]; [congruence|]. intros _.
  assert (Hin : exp_category item ∈ categories (item :: xs))
    by (apply elem_of_remove_dups; left).
  destruct (categories (item :: xs)); [inversion Hin|simpl; lia].
Qed.

End PieChart.


(** X14: when there are expenses, the chart has as many colours as there
    are categories, up to seven, all different and red first; so with the
    categories of the expense form each slice has a colour of its own. *)
Theorem pie_colors_cover_form_categories (s : session) :
  expenses (data s) <> [] ->
  Z.of_nat (length (pie_colors (expenses (data s))))
  = Z.min (Z.of_nat (size (category_summary (expenses (data s))))) 7
  /\ NoDup (pie_colors (expenses (data s)))
  /\ head (pie_colors (expenses (data s))) = Some "#ff4444"
  /\ ((forall item, item ∈ expenses (data s) ->
         exp_category item ∈ form_categories) ->
      length (pie_colors (expenses (data s)))
      = size (category_summary (expenses (data s)))).
Proof.
  intros Hne. pose proof (categories_nonempty _ Hne) as Hcats.
  assert (Hlen : Z.of_nat (length (pie_colors (expenses (data s))))
                 = Z.min (Z.of_nat (size (category_summary
                                            (expenses (data s))))) 7).
  { unfold pie_colors, py_slice_to. rewrite summary_size.
    destruct (Z.leb_spec 0 (Z.of_nat (length (categories (expenses (data s)))) - 1));
      [|lia].
    simpl length. rewrite length_take. simpl length. lia. }
  split; [exact Hlen|]. split; [|split; [reflexivity|]].
  - unfold pie_colors.
    apply (sublist_NoDup _ ("#ff4444" :: other_colors)); [compute_done|].
    apply sublist_skip. unfold py_slice_to.
    destruct (0 <=? _); apply sublist_take.
  - intros Hform. rewrite summary_size in Hlen |- *.
    assert (length (categories (expenses (data s)))
            ≤ length form_categories)%nat.
    { apply submseteq_length, NoDup_submseteq; [apply NoDup_remove_dups|].
      intros c [item [-> Hin]]%elem_of_remove_dups%list_elem_of_fmap.
      apply Hform, Hin. }
    simpl in *. lia.
Qed.


Lemma pie_colors_cover_form_categories_witness :
  length (pie_colors (expenses (data some_expenses)))
  = size (category_summary (expenses (data some_expenses))).
Proof.
  apply (pie_colors_cover_form_categories some_expenses).
  - discriminate.
  - apply Forall_forall. repeat (constructor; [compute_done|]). constructor.
Defined.

(** X15: each of the four forms reports an error exactly when it stores
    nothing: with an empty description, and for the withdrawal form also
    with an amount above the savings balance.  On an error the session and
    the file are as before; on a success the form shows the submitted amount
    and the document in memory has been written once. *)
Theorem forms_report_what_they_did
    (amount : Z) (description category : string) (d : date) (now : datetime)
    (s : session) :
  (feedback_matches amount s (income_form amount description d now s)
   /\ (is_error (income_form amount description d now s)
       <-> description = ""))
  /\ (feedback_matches amount s
        (expense_form amount description category d now s)
      /\ (is_error (expense_form amount description category d now s)
          <-> description = ""))
  /\ (feedback_matches amount s
        (savings_deposit_form amount description d now s)
      /\ (is_error (savings_deposit_form amount description d now s)
          <-> description = ""))
  /\ (feedback_matches amount s
        (savings_withdrawal_form amount description d now s)
      /\ (is_error (savings_withdrawal_form amount description d now s)
          <-> description = "" \/ savings_account (data s) < amount)).
Proof.
  unfold feedback_matches, is_error, income_form, expense_form,
    savings_deposit_form, savings_withdrawal_form.
  destruct (py_truth description) eqn:Ht.
  - apply py_truth_true in Ht.
    repeat (split; [simpl; tauto|]).
    destruct (Z.le_gt_cases amount (savings_account (data s))) as [Hle|Hgt].
    + rewrite withdraw_ok by exact Hle. simpl.
      split; [split; reflexivity|]. split; [tauto|]. intros [?|?]; [tauto|lia].
    + rewrite withdraw_refused by exact Hgt. simpl. tauto.
  - assert (description = "").
    { destruct (decide (description = "")) as [|Hne]; [assumption|].
      apply py_truth_true in Hne. congruence. }
    simpl. tauto.
Qed.
